(** * choyxona_bot: order calculator, payload validator and SQLite order store

    A shallow embedding of [schemas.py], [menu.py], [bot.py],
    [storage.py] and [config.py], and the properties of the order
    pipeline proved on it.

    Conventions of the embedding.
    - [Decimal] values are whole currency units, represented by their
      numerical value in [Z].  Arithmetic goes through the default
      [decimal] context of Python (precision 28, ROUND_HALF_EVEN):
      every [+], [-] and [*] rounds its exact result to 28 significant
      digits.  Comparisons and the builtin [max] are exact.
    - [float(d)] is the nearest binary64 number (ties to even).  Only
      the 53-bit significand is modelled; the exponent range is not
      (a magnitude of 2^1024 or more, which Python turns into [inf], is
      outside the embedding).
    - A NUMERIC column of SQLite keeps a REAL as an INTEGER when the
      value is integral and strictly between -2^63 and 2^63; an INTEGER
      column bound to a Python [int] outside the signed 64-bit range
      raises [OverflowError].
    - TEXT is compared bytewise ([String.compare]), as the BINARY
      collation does. *)

From Stdlib Require Import ZArith Lia Bool List String Ascii.
From Stdlib Require Import Sorting.Sorted Sorting.Permutation.
From stdpp Require Import base option list gmap strings sorting.

Local Open Scope string_scope.
Local Open Scope Z_scope.

(** ** Exceptions and results *)

Inductive exn :=
  | ValueError (msg : string)
  | OverflowError (msg : string).

Inductive result (A : Type) :=
  | Ok (a : A)
  | Raise (e : exn).
Arguments Ok {A} a.
Arguments Raise {A} e.

Global Instance result_ret : MRet result := fun A a => Ok a.
Global Instance result_bind : MBind result := fun A B k r =>
  match r with
  | Ok a => k a
  | Raise e => Raise e
  end.
Global Instance result_fmap : FMap result := fun A B f r =>
  match r with
  | Ok a => Ok (f a)
  | Raise e => Raise e
  end.

(** ** decimal.Decimal under the default context *)

Definition Decimal := Z.

(** [getcontext().prec] *)
Definition prec : Z := 28.

Fixpoint digits_from (fuel : nat) (k : Z) (n : Z) : Z :=
  match fuel with
  | O => k
  | S fuel' => if n <? 10 ^ k then k else digits_from fuel' (k + 1) n
  end.

(** Number of decimal digits of [n >= 0] (0 for 0). *)
Definition num_digits (n : Z) : Z :=
  digits_from (S (Z.to_nat (Z.log2 n))) 0 n.

(** Round a magnitude to a multiple of [unit], ties to the even multiple. *)
Definition round_half_even (a unit : Z) : Z :=
  let q := a / unit in
  let r := a mod unit in
  let q' := if (unit <? 2 * r) || ((2 * r =? unit) && Z.odd q) then q + 1 else q in
  q' * unit.

(** The context rounding applied to the exact result of an operation. *)
Definition round_context (v : Z) : Decimal :=
  let a := Z.abs v in
  let d := num_digits a in
  if d <=? prec then v
  else Z.sgn v * round_half_even a (10 ^ (d - prec)).

Definition dec_add (a b : Decimal) : Decimal := round_context (a + b).
Definition dec_sub (a b : Decimal) : Decimal := round_context (a - b).
Definition dec_mul (a b : Decimal) : Decimal := round_context (a * b).

(** [Decimal(n)] for a Python [int]: exact, whatever the context. *)
Definition Decimal_of_int (n : Z) : Decimal := n.

(** The builtin [max(a, b)]: [b] when [b > a], else [a]. *)
Definition py_max (a b : Decimal) : Decimal := if a <? b then b else a.

(** [sum(xs, Decimal(0))] *)
Definition dec_sum (xs : list Decimal) : Decimal :=
  fold_left dec_add xs (Decimal_of_int 0).

(** ** float and the NUMERIC columns *)

(** [float(d)]: nearest binary64, ties to even significand. *)
Definition float_of_Decimal (v : Decimal) : Z :=
  let a := Z.abs v in
  let e := Z.log2 a - 52 in
  if e <=? 0 then v
  else Z.sgn v * round_half_even a (2 ^ e).

Inductive sql_value :=
  | SqlInteger (z : Z)
  | SqlReal (f : Z).

(** NUMERIC affinity on a bound REAL. *)
Definition numeric_affinity (f : Z) : sql_value :=
  if (- 2 ^ 63 <? f) && (f <? 2 ^ 63) then SqlInteger f else SqlReal f.

(** The value of [repr(f)] for an integral binary64 [f] kept as REAL:
    the decimal with the fewest significant digits that [float] reads
    back as [f], and the nearest to [f] among those. *)
Fixpoint shortest_from (p : nat) (f : Z) : Z :=
  let unit := 10 ^ Z.of_nat p in
  let lo := (f / unit) * unit in
  let hi := lo + unit in
  let lo_ok := float_of_Decimal lo =? f in
  let hi_ok := float_of_Decimal hi =? f in
  let here :=
    if lo_ok && hi_ok then Some (if f - lo <=? hi - f then lo else hi)
    else if lo_ok then Some lo
    else if hi_ok then Some hi
    else None in
  match here, p with
  | Some c, _ => c
  | None, O => f
  | None, S p' => shortest_from p' f
  end.

Definition float_repr (f : Z) : Z :=
  Z.sgn f * shortest_from (Z.to_nat (Z.log2 (Z.abs f))) (Z.abs f).

(** [Decimal(str(x))] for the Python value [x] read from a NUMERIC cell. *)
Definition Decimal_of_cell (c : sql_value) : Decimal :=
  match c with
  | SqlInteger z => z
  | SqlReal f => float_repr f
  end.

(** What [float(d)] bound to a NUMERIC column leaves in the cell. *)
Definition store_numeric (d : Decimal) : sql_value :=
  numeric_affinity (float_of_Decimal d).


(** ** datetime: naive timestamps and their ISO 8601 text *)

Module date.
Record t := mk { year : Z; month : Z; day : Z }.
End date.

Module time.
Record t := mk { hour : Z; minute : Z; second : Z; microsecond : Z }.
(** [time.min] and [time.max] *)
Definition min : t := mk 0 0 0 0.
Definition max : t := mk 23 59 59 999999.
End time.

Module datetime.
Record t := mk {
  year : Z; month : Z; day : Z;
  hour : Z; minute : Z; second : Z; microsecond : Z }.

Definition combine (d : date.t) (tm : time.t) : t :=
  mk (date.year d) (date.month d) (date.day d)
     (time.hour tm) (time.minute tm) (time.second tm) (time.microsecond tm).

(** [dt.date()] *)
Definition date (dt : t) : date.t := date.mk (year dt) (month dt) (day dt).

(** The field-wise order of timestamps: [dt1 <= dt2]. *)
Definition key (dt : t) : list Z :=
  [year dt; month dt; day dt; hour dt; minute dt; second dt; microsecond dt].
End datetime.

Definition is_leap (y : Z) : bool :=
  (y mod 4 =? 0) && (negb (y mod 100 =? 0) || (y mod 400 =? 0)).

Definition days_in_month (y m : Z) : Z :=
  if m =? 2 then (if is_leap y then 29 else 28)
  else if (m =? 4) || (m =? 6) || (m =? 9) || (m =? 11) then 30
  else 31.

(** The values a Python [date] can hold (MINYEAR = 1, MAXYEAR = 9999). *)
Definition valid_date (d : date.t) : bool :=
  (1 <=? date.year d) && (date.year d <=? 9999) &&
  (1 <=? date.month d) && (date.month d <=? 12) &&
  (1 <=? date.day d) && (date.day d <=? days_in_month (date.year d) (date.month d)).

Definition valid_time (tm : time.t) : bool :=
  (0 <=? time.hour tm) && (time.hour tm <=? 23) &&
  (0 <=? time.minute tm) && (time.minute tm <=? 59) &&
  (0 <=? time.second tm) && (time.second tm <=? 59) &&
  (0 <=? time.microsecond tm) && (time.microsecond tm <=? 999999).

Definition valid_datetime (dt : datetime.t) : bool :=
  valid_date (datetime.date dt) &&
  valid_time (time.mk (datetime.hour dt) (datetime.minute dt)
                      (datetime.second dt) (datetime.microsecond dt)).

(** Lexicographic comparison of the field lists. *)
Fixpoint compare_fields (a b : list Z) : comparison :=
  match a, b with
  | [], [] => Eq
  | [], _ :: _ => Lt
  | _ :: _, [] => Gt
  | x :: a', y :: b' =>
      match x ?= y with
      | Eq => compare_fields a' b'
      | c => c
      end
  end.

Definition datetime_compare (a b : datetime.t) : comparison :=
  compare_fields (datetime.key a) (datetime.key b).

Definition datetime_le (a b : datetime.t) : Prop := datetime_compare a b <> Gt.

Definition digit_char (d : Z) : ascii := ascii_of_nat (Z.to_nat (48 + d)).

(** ["%0wd" % n] for [0 <= n < 10^w]. *)
Fixpoint pad (w : nat) (n : Z) : string :=
  match w with
  | O => ""
  | S w' =>
      String (digit_char (n / 10 ^ Z.of_nat w')) (pad w' (n mod 10 ^ Z.of_nat w'))
  end.

(** The fractional part [isoformat] writes: none when the microsecond
    is 0. *)
Definition fraction (us : Z) : string :=
  if us =? 0 then "" else "." +:+ pad 6 us.

(** [dt.isoformat()] of a naive datetime. *)
Definition isoformat (dt : datetime.t) : string :=
  pad 4 (datetime.year dt) +:+ "-" +:+ pad 2 (datetime.month dt) +:+ "-" +:+
  pad 2 (datetime.day dt) +:+ "T" +:+ pad 2 (datetime.hour dt) +:+ ":" +:+
  pad 2 (datetime.minute dt) +:+ ":" +:+ pad 2 (datetime.second dt) +:+
  fraction (datetime.microsecond dt).

Definition digit_of (c : ascii) : option Z :=
  let n := Z.of_nat (nat_of_ascii c) in
  if (48 <=? n) && (n <=? 57) then Some (n - 48) else None.

Fixpoint read_digits (w : nat) (acc : Z) (s : string) : option (Z * string) :=
  match w, s with
  | O, _ => Some (acc, s)
  | S w', String c s' => d ← digit_of c; read_digits w' (10 * acc + d) s'
  | S _, "" => None
  end.

Definition expect (c : ascii) (s : string) : option string :=
  match s with
  | String c' s' => if Ascii.eqb c c' then Some s' else None
  | "" => None
  end.

(** [datetime.fromisoformat] on the two layouts [isoformat] writes for a
    naive datetime (19 characters, or 26 with the six-digit fraction).
    Python accepts further ISO 8601 layouts; they never reach the
    [created_at] column and are answered with [None] here, as is a text
    whose fields are out of range. *)
Definition fromisoformat (s : string) : option datetime.t :=
  '(y, s) ← read_digits 4 0 s;
  s ← expect "-" s;
  '(m, s) ← read_digits 2 0 s;
  s ← expect "-" s;
  '(d, s) ← read_digits 2 0 s;
  s ← expect "T" s;
  '(hh, s) ← read_digits 2 0 s;
  s ← expect ":" s;
  '(mm, s) ← read_digits 2 0 s;
  s ← expect ":" s;
  '(ss, s) ← read_digits 2 0 s;
  us ← match s with
       | "" => Some 0
       | String c s' =>
           if Ascii.eqb c "." then
             '(us, rest) ← read_digits 6 0 s';
             match rest with "" => Some us | _ => None end
           else None
       end;
  let dt := datetime.mk y m d hh mm ss us in
  if valid_datetime dt then Some dt else None.


(** ** str.strip() *)

Definition bytes (l : list nat) : string :=
  fold_right (fun n s => String (ascii_of_nat n) s) "" l.

(** The UTF-8 encodings of the characters Python counts as whitespace. *)
Definition whitespace : list string :=
  map bytes
    [[9%nat]; [10%nat]; [11%nat]; [12%nat]; [13%nat]; [28%nat]; [29%nat];
     [30%nat]; [31%nat]; [32%nat];
     [194; 133]%nat; [194; 160]%nat; [225; 154; 128]%nat;
     [226; 128; 128]%nat; [226; 128; 129]%nat; [226; 128; 130]%nat;
     [226; 128; 131]%nat; [226; 128; 132]%nat; [226; 128; 133]%nat;
     [226; 128; 134]%nat; [226; 128; 135]%nat; [226; 128; 136]%nat;
     [226; 128; 137]%nat; [226; 128; 138]%nat; [226; 128; 168]%nat;
     [226; 128; 169]%nat; [226; 128; 175]%nat; [226; 129; 159]%nat;
     [227; 128; 128]%nat].

Fixpoint drop_prefix (p s : string) : option string :=
  match p, s with
  | "", _ => Some s
  | String a p', String b s' => if Ascii.eqb a b then drop_prefix p' s' else None
  | String _ _, "" => None
  end.

Fixpoint drop_any (ps : list string) (s : string) : option string :=
  match ps with
  | [] => None
  | p :: ps' =>
      match drop_prefix p s with
      | Some s' => Some s'
      | None => drop_any ps' s
      end
  end.

Fixpoint strip_left (ps : list string) (fuel : nat) (s : string) : string :=
  match fuel with
  | O => s
  | S fuel' =>
      match drop_any ps s with
      | Some s' => strip_left ps fuel' s'
      | None => s
      end
  end.

Definition lstrip (s : string) : string :=
  strip_left whitespace (String.length s) s.

Definition rstrip (s : string) : string :=
  String.rev (strip_left (map String.rev whitespace) (String.length s) (String.rev s)).

Definition strip (s : string) : string := rstrip (lstrip s).

(** ** schemas.py *)

Module OrderItemRequest.
Record t := mk { id : string; quantity : Z }.
End OrderItemRequest.

Module OrderRequest.
Record t := mk {
  customer : string;
  items : list OrderItemRequest.t;
  discount : Z;
  paid : Z }.
End OrderRequest.

Module StoredOrderItem.
Record t := mk {
  menu_id : string;
  name : string;
  quantity : Z;
  unit_price : Decimal;
  subtotal : Decimal }.
End StoredOrderItem.

Module StoredOrder.
Record t := mk {
  id : option Z;
  chat_id : Z;
  username : option string;
  customer : string;
  discount : Decimal;
  paid : Decimal;
  total : Decimal;
  change : Decimal;
  balance : Decimal;
  created_at : datetime.t;
  items : list StoredOrderItem.t }.

(** [order.model_copy(update={"id": order_id})] *)
Definition with_id (order : t) (order_id : Z) : t :=
  mk (Some order_id) (chat_id order) (username order) (customer order)
     (discount order) (paid order) (total order) (change order)
     (balance order) (created_at order) (items order).
End StoredOrder.

Module OrdersSummary.
Record t := mk {
  total_orders : Z;
  total_amount : Decimal;
  total_paid : Decimal;
  total_balance : Decimal;
  total_change : Decimal }.
End OrdersSummary.

(** *** The decoded payload

    The JSON text of a submission is represented by what the JSON reader
    of pydantic makes of it.  A scalar is recorded by the two readings
    the schema can ask of it: [as_int], the integer a field declared
    [int] accepts it as, and [as_str], the string a field declared
    [str] accepts it as ([None] when the field rejects the scalar; JSON
    [null] is [JScalar None None]).  An object is the finite map of its
    members; members the schema does not declare are ignored. *)

#[local] Unset Elimination Schemes.
Inductive json :=
  | JScalar (as_int : option Z) (as_str : option string)
  | JArray (xs : list json)
  | JObject (members : gmap string json).
#[local] Set Elimination Schemes.

(** The text handed over by the Web App: not JSON at all, or a JSON
    value. *)
Inductive payload :=
  | NotJson
  | Json (j : json).

Definition int_field (j : json) : option Z :=
  match j with
  | JScalar (Some n) _ => Some n
  | _ => None
  end.

Definition str_field (j : json) : option string :=
  match j with
  | JScalar _ (Some s) => Some s
  | _ => None
  end.

(** A field with a default: the default when the member is absent, the
    validated member otherwise. *)
Definition with_default {A} (members : gmap string json) (key : string)
    (default : A) (validate : json -> option A) : option A :=
  match members !! key with
  | None => Some default
  | Some j => validate j
  end.

(** [Field(..., ge=bound)] on an [int]. *)
Definition int_ge (bound : Z) (j : json) : option Z :=
  n ← int_field j; if bound <=? n then Some n else None.

(** Validation of one element of [items] as an [OrderItemRequest]:
    both fields are required. *)
Definition validate_item (j : json) : option OrderItemRequest.t :=
  match j with
  | JObject members =>
      id ← members !! "id" ≫= str_field;
      quantity ← members !! "quantity" ≫= int_ge 1;
      Some (OrderItemRequest.mk id quantity)
  | _ => None
  end.

(** The [model_validator(mode="after")] of [OrderRequest]. *)
Definition ensure_items_present (self : OrderRequest.t) : option OrderRequest.t :=
  match OrderRequest.items self with
  | [] => None
  | _ :: _ => Some self
  end.

(** [OrderRequest.model_validate_json]: [None] stands for pydantic's
    [ValidationError]. *)
Definition model_validate_json (raw_data : payload) : option OrderRequest.t :=
  match raw_data with
  | Json (JObject members) =>
      customer ← with_default members "customer" "" str_field;
      items ← match members !! "items" with
              | Some (JArray xs) => mapM validate_item xs
              | _ => None
              end;
      discount ← with_default members "discount" 0 (int_ge 0);
      paid ← with_default members "paid" 0 (int_ge 0);
      ensure_items_present (OrderRequest.mk customer items discount paid)
  | _ => None
  end.

(** [parse_order_payload]; the text pydantic appends to the message is
    not modelled. *)
Definition parse_order_payload (raw_data : payload) : result OrderRequest.t :=
  match model_validate_json raw_data with
  | Some order => Ok order
  | None => Raise (ValueError "Invalid order payload")
  end.

(** ** menu.py *)

Module MenuItem.
Record t := mk { id : string; name : string; category : string; price : Decimal }.
End MenuItem.

Definition MENU : list MenuItem.t :=
  [ MenuItem.mk "tea_green" "Ko'k choy" "Ichimliklar" 5000;
    MenuItem.mk "tea_black" "Qora choy" "Ichimliklar" 4000;
    MenuItem.mk "lepyoshka" "Non" "Qo'shimchalar" 3000;
    MenuItem.mk "somsa_lamb" "Qo'y go'shtli somsa" "Somsa" 12000;
    MenuItem.mk "somsa_beef" "Mol go'shtli somsa" "Somsa" 11000;
    MenuItem.mk "plov" "Palov" "Asosiy taomlar" 28000;
    MenuItem.mk "lagman" "Lag'mon" "Asosiy taomlar" 26000;
    MenuItem.mk "shashlik" "Kabob" "Asosiy taomlar" 18000;
    MenuItem.mk "salad" "Achchiq-chuchuk" "Salatlar" 9000;
    MenuItem.mk "ayran" "Ayran" "Ichimliklar" 7000 ].

(** [{item.id: item for item in MENU}]: a later item replaces an earlier
    one with the same id. *)
Definition MENU_BY_ID : gmap string MenuItem.t :=
  fold_left (fun m item => <[MenuItem.id item := item]> m) MENU ∅.


(** ** storage.py *)

(** A row of [orders]; the NUMERIC columns hold what SQLite made of the
    bound floats, [created_at] the ISO text. *)
Module OrderRow.
Record t := mk {
  id : Z;
  chat_id : Z;
  username : option string;
  customer : string;
  discount : sql_value;
  paid : sql_value;
  total : sql_value;
  change : sql_value;
  balance : sql_value;
  created_at : string }.
End OrderRow.

(** A row of [order_items]. *)
Module ItemRow.
Record t := mk {
  id : Z;
  order_id : Z;
  menu_id : string;
  name : string;
  quantity : Z;
  unit_price : sql_value;
  subtotal : sql_value }.
End ItemRow.

(** The database file: both tables in rowid order, and the AUTOINCREMENT
    counters of [sqlite_sequence] (the largest id handed out so far).
    The counters are not bounded here: SQLite reports a full database
    once 2^63 - 1 ids were handed out, like it does for a full disk. *)
Module Database.
Record t := mk {
  orders : list OrderRow.t;
  order_items : list ItemRow.t;
  orders_seq : Z;
  order_items_seq : Z }.

(** The file after [__post_init__] created the empty tables. *)
Definition empty : t := mk [] [] 0 0.
End Database.

(** A connection: the committed file and the state seen inside the open
    transaction.  Closing without a commit leaves [committed]. *)
Module Connection.
Record t := mk { committed : Database.t; working : Database.t }.

Definition connect (db : Database.t) : t := mk db db.
Definition commit (conn : t) : t := mk (working conn) (working conn).
Definition close (conn : t) : Database.t := committed conn.
End Connection.

Definition int64 (n : Z) : bool := (- 2 ^ 63 <=? n) && (n <? 2 ^ 63).

(** Binding a Python [int] to a statement parameter. *)
Definition bind_int (n : Z) : result Z :=
  if int64 n then Ok n
  else Raise (OverflowError "Python int too large to convert to SQLite INTEGER").

(** [INSERT INTO orders (...) VALUES (...)], returning [cursor.lastrowid]. *)
Definition insert_order (conn : Connection.t) (order : StoredOrder.t)
    : result (Connection.t * Z) :=
  chat_id ← bind_int (StoredOrder.chat_id order);
  let db := Connection.working conn in
  let order_id := Database.orders_seq db + 1 in
  let row :=
    OrderRow.mk order_id chat_id (StoredOrder.username order)
      (StoredOrder.customer order)
      (store_numeric (StoredOrder.discount order))
      (store_numeric (StoredOrder.paid order))
      (store_numeric (StoredOrder.total order))
      (store_numeric (StoredOrder.change order))
      (store_numeric (StoredOrder.balance order))
      (isoformat (StoredOrder.created_at order)) in
  Ok (Connection.mk (Connection.committed conn)
        (Database.mk (Database.orders db ++ [row]) (Database.order_items db)
           order_id (Database.order_items_seq db)),
      order_id).

(** [INSERT INTO order_items (...) VALUES (...)] *)
Definition insert_item (conn : Connection.t) (order_id : Z)
    (item : StoredOrderItem.t) : result Connection.t :=
  quantity ← bind_int (StoredOrderItem.quantity item);
  let db := Connection.working conn in
  let item_id := Database.order_items_seq db + 1 in
  let row :=
    ItemRow.mk item_id order_id (StoredOrderItem.menu_id item)
      (StoredOrderItem.name item) quantity
      (store_numeric (StoredOrderItem.unit_price item))
      (store_numeric (StoredOrderItem.subtotal item)) in
  Ok (Connection.mk (Connection.committed conn)
        (Database.mk (Database.orders db) (Database.order_items db ++ [row])
           (Database.orders_seq db) item_id)).

(** The [for item in order.items] loop of [record_order]. *)
Fixpoint insert_items (conn : Connection.t) (order_id : Z)
    (items : list StoredOrderItem.t) : result Connection.t :=
  match items with
  | [] => Ok conn
  | item :: rest =>
      conn' ← insert_item conn order_id item;
      insert_items conn' order_id rest
  end.

(** [OrderStorage.record_order]: the file after the call, and the
    returned order or the exception that left the [with] block (the
    connection is then closed without a commit). *)
Definition record_order (db : Database.t) (order : StoredOrder.t)
    : Database.t * result StoredOrder.t :=
  let conn := Connection.connect db in
  match insert_order conn order with
  | Raise e => (Connection.close conn, Raise e)
  | Ok (conn1, order_id) =>
      match insert_items conn1 order_id (StoredOrder.items order) with
      | Raise e => (Connection.close conn1, Raise e)
      | Ok conn2 =>
          (Connection.close (Connection.commit conn2),
           Ok (StoredOrder.with_id order order_id))
      end
  end.

(** [OrderStorage._fetch_order_items] *)
Definition _fetch_order_items (db : Database.t) (order_id : Z)
    : list StoredOrderItem.t :=
  map (fun row =>
         StoredOrderItem.mk (ItemRow.menu_id row) (ItemRow.name row)
           (ItemRow.quantity row)
           (Decimal_of_cell (ItemRow.unit_price row))
           (Decimal_of_cell (ItemRow.subtotal row)))
      (filter (fun row => ItemRow.order_id row = order_id) (Database.order_items db)).

(** [created_at BETWEEN ? AND ?] on TEXT. *)
Definition between (x lo hi : string) : bool :=
  String.leb lo x && String.leb x hi.

(** The relation of [ORDER BY created_at ASC]. *)
Definition created_at_le (r1 r2 : OrderRow.t) : Prop :=
  String.le (OrderRow.created_at r1) (OrderRow.created_at r2).

Global Instance created_at_le_dec : RelDecision created_at_le.
Proof. intros r1 r2. unfold created_at_le. apply _. Defined.

(** The rows selected by [list_orders], in the order of
    [ORDER BY created_at ASC]. *)
Definition select_orders (db : Database.t) (day : option date.t) : list OrderRow.t :=
  let rows :=
    match day with
    | Some d =>
        let start := datetime.combine d time.min in
        let end_ := datetime.combine d time.max in
        filter
          (fun row =>
             between (OrderRow.created_at row) (isoformat start) (isoformat end_) = true)
          (Database.orders db)
    | None => Database.orders db
    end in
  merge_sort created_at_le rows.

(** The [StoredOrder] built from one row. *)
Definition read_order (db : Database.t) (row : OrderRow.t) : result StoredOrder.t :=
  let items := _fetch_order_items db (OrderRow.id row) in
  match fromisoformat (OrderRow.created_at row) with
  | None => Raise (ValueError "Invalid isoformat string")
  | Some created_at =>
      Ok (StoredOrder.mk (Some (OrderRow.id row)) (OrderRow.chat_id row)
            (OrderRow.username row) (OrderRow.customer row)
            (Decimal_of_cell (OrderRow.discount row))
            (Decimal_of_cell (OrderRow.paid row))
            (Decimal_of_cell (OrderRow.total row))
            (Decimal_of_cell (OrderRow.change row))
            (Decimal_of_cell (OrderRow.balance row))
            created_at items)
  end.

(** [OrderStorage.list_orders] *)
Definition list_orders (db : Database.t) (day : option date.t)
    : result (list StoredOrder.t) :=
  mapM (read_order db) (select_orders db day).

(** The aggregation of [summarize] over the listed orders. *)
Definition aggregate (orders : list StoredOrder.t) : OrdersSummary.t :=
  let total_amount := dec_sum (map StoredOrder.total orders) in
  let total_paid := dec_sum (map StoredOrder.paid orders) in
  let total_balance := dec_sum (map StoredOrder.balance orders) in
  let total_change := dec_sum (map StoredOrder.change orders) in
  OrdersSummary.mk (Z.of_nat (length orders)) total_amount total_paid
    total_balance total_change.

(** [OrderStorage.summarize] *)
Definition summarize (db : Database.t) (day : option date.t) : result OrdersSummary.t :=
  orders ← list_orders db day;
  Ok (aggregate orders).

(** ** bot.py *)

Definition unknown_item_message (id : string) : string :=
  "Menu item '" +:+ id +:+ "' mavjud emas".

(** The loop of [build_items], with its two accumulators. *)
Fixpoint build_items_loop (reqs : list OrderItemRequest.t)
    (items : list StoredOrderItem.t) (total : Decimal)
    : result (list StoredOrderItem.t * Decimal) :=
  match reqs with
  | [] => Ok (items, total)
  | item_req :: rest =>
      match MENU_BY_ID !! OrderItemRequest.id item_req with
      | None => Raise (ValueError (unknown_item_message (OrderItemRequest.id item_req)))
      | Some menu_item =>
          let subtotal :=
            dec_mul (MenuItem.price menu_item)
                    (Decimal_of_int (OrderItemRequest.quantity item_req)) in
          build_items_loop rest
            (items ++ [StoredOrderItem.mk (MenuItem.id menu_item)
                         (MenuItem.name menu_item)
                         (OrderItemRequest.quantity item_req)
                         (MenuItem.price menu_item) subtotal])
            (dec_add total subtotal)
      end
  end.

Definition build_items (order : OrderRequest.t)
    : result (list StoredOrderItem.t * Decimal) :=
  build_items_loop (OrderRequest.items order) [] (Decimal_of_int 0).

(** The part of an [Update] the handler reads: the Web App data, the
    chat id, and the user (whose username may be unset). *)
Module Update.
Record t := mk {
  web_app_data : option payload;
  effective_chat_id : Z;
  effective_user : option (option string) }.
End Update.

(** What the handler sends back: nothing, a plain text, or the receipt
    rendered from the stored order, the gross total and the discount. *)
Inductive reply :=
  | NoReply
  | ReplyText (text : string)
  | Receipt (stored_order : StoredOrder.t) (total discount : Decimal).

Definition payload_error_text : string :=
  "Buyurtma ma'lumotida xatolik. Iltimos, qaytadan urinib ko'ring.".

(** The amounts computed between [build_items] and [record_order]. *)
Definition make_order (update : Update.t) (order_payload : OrderRequest.t)
    (items : list StoredOrderItem.t) (total : Decimal) (utcnow : datetime.t)
    : StoredOrder.t :=
  let discount := Decimal_of_int (OrderRequest.discount order_payload) in
  let discount := if total <? discount then total else discount in
  let net_total := dec_sub total discount in
  let paid := Decimal_of_int (OrderRequest.paid order_payload) in
  let change := py_max (dec_sub paid net_total) (Decimal_of_int 0) in
  let balance := py_max (dec_sub net_total paid) (Decimal_of_int 0) in
  StoredOrder.mk None (Update.effective_chat_id update)
    (match Update.effective_user update with
     | Some user => user
     | None => None
     end)
    (strip (OrderRequest.customer order_payload))
    discount paid net_total change balance utcnow items.

(** [handle_web_app]: the database after the update was handled, and the
    reply sent, or the exception that escaped the handler.  [utcnow] is
    the value [datetime.utcnow()] returns during the call. *)
Definition handle_web_app (db : Database.t) (update : Update.t)
    (utcnow : datetime.t) : Database.t * result reply :=
  match Update.web_app_data update with
  | None => (db, Ok NoReply)
  | Some data =>
      match parse_order_payload data with
      | Raise (ValueError _) => (db, Ok (ReplyText payload_error_text))
      | Raise e => (db, Raise e)
      | Ok order_payload =>
          match build_items order_payload with
          | Raise (ValueError msg) => (db, Ok (ReplyText msg))
          | Raise e => (db, Raise e)
          | Ok (items, total) =>
              let stored_order := make_order update order_payload items total utcnow in
              match record_order db stored_order with
              | (db', Raise e) => (db', Raise e)
              | (db', Ok stored_order') =>
                  (db', Ok (Receipt stored_order' total (StoredOrder.discount stored_order')))
              end
          end
      end
  end.

(** ** menu.py: the listing for the front end *)

(** The dictionary [MenuItem.as_dict] returns; [price] is a float. *)
Module MenuItemDict.
Record t := mk { id : string; name : string; category : string; price : Z }.
End MenuItemDict.

Definition as_dict (self : MenuItem.t) : MenuItemDict.t :=
  MenuItemDict.mk (MenuItem.id self) (MenuItem.name self) (MenuItem.category self)
    (float_of_Decimal (MenuItem.price self)).

(** One element of the list [menu_to_sections] returns. *)
Module MenuSection.
Record t := mk { category : string; items : list MenuItemDict.t }.
End MenuSection.

(** [sections.setdefault(item.category, []).append(item.as_dict())] *)
Definition add_to_section (sections : gmap string (list MenuItemDict.t))
    (item : MenuItem.t) : gmap string (list MenuItemDict.t) :=
  <[MenuItem.category item :=
      (default [] (sections !! MenuItem.category item) ++ [as_dict item])%list]> sections.

(** [menu_to_sections]: the keys of a dict are distinct, so
    [sorted(sections.keys())] is the one ascending list of them,
    whatever order the keys are enumerated in. *)
Definition menu_to_sections (items : list MenuItem.t) : list MenuSection.t :=
  let sections := fold_left add_to_section items ∅ in
  map (fun category => MenuSection.mk category (default [] (sections !! category)))
      (merge_sort String.le (map fst (map_to_list sections))).

(** ** bot.py: the texts of the replies *)

(** [str(n)] for [n >= 0]. *)
Fixpoint numeral_from (fuel : nat) (n : Z) : string :=
  match fuel with
  | O => String (digit_char n) ""
  | S fuel' =>
      if n <? 10 then String (digit_char n) ""
      else numeral_from fuel' (n / 10) +:+ String (digit_char (n mod 10)) ""
  end.

Definition numeral (n : Z) : string := numeral_from (Z.to_nat (Z.log2 n)) n.

(** [str(n)] for a Python [int]. *)
Definition int_text (n : Z) : string :=
  (if n <? 0 then "-" else "") +:+ numeral (Z.abs n).

(** The digits of [n >= 0] in groups of three, separated by commas. *)
Fixpoint grouped_from (fuel : nat) (n : Z) : string :=
  match fuel with
  | O => numeral n
  | S fuel' =>
      if n <? 1000 then numeral n
      else grouped_from fuel' (n / 1000) +:+ "," +:+ pad 3 (n mod 1000)
  end.

Definition grouped (n : Z) : string := grouped_from (Z.to_nat (Z.log2 n)) n.

(** [f"{amount:,.0f}"] for a whole amount. *)
Definition format_grouped (amount : Decimal) : string :=
  (if amount <? 0 then "-" else "") +:+ grouped (Z.abs amount).

(** [s.replace(old, new)] for single characters. *)
Fixpoint replace_char (old new : ascii) (s : string) : string :=
  match s with
  | "" => ""
  | String c s' => String (if Ascii.eqb c old then new else c) (replace_char old new s')
  end.

(** [format_currency] *)
Definition format_currency (amount : Decimal) : string :=
  replace_char "," " " (format_grouped amount +:+ " so'm").

(** The bullet, the multiplication sign and the minus sign of the
    receipt, in UTF-8. *)
Definition bullet : string := bytes [226; 128; 162]%nat.
Definition times_sign : string := bytes [195; 151]%nat.
Definition minus_sign : string := bytes [226; 136; 146]%nat.

Definition item_line (item : StoredOrderItem.t) : string :=
  bullet +:+ " " +:+ StoredOrderItem.name item +:+ " " +:+ times_sign +:+ " " +:+
  int_text (StoredOrderItem.quantity item) +:+ " = " +:+
  format_currency (StoredOrderItem.subtotal item).

(** The [lines] of the receipt built at the end of [handle_web_app]. *)
Definition receipt_lines (stored_order : StoredOrder.t) (total discount : Decimal)
    : list string :=
  (["<b>Buyurtma qabul qilindi</b>"] ++
   (match StoredOrder.customer stored_order with
    | "" => []
    | customer => ["Mijoz: " +:+ customer]
    end) ++
   map item_line (StoredOrder.items stored_order) ++
   ["Jami: " +:+ format_currency total] ++
   (if discount =? 0 then []
    else ["Chegirma: " +:+ minus_sign +:+ format_currency discount]) ++
   ["To'lanishi kerak: " +:+ format_currency (StoredOrder.total stored_order);
    "Olingan to'lov: " +:+ format_currency (StoredOrder.paid stored_order)] ++
   (if StoredOrder.change stored_order =? 0 then []
    else ["Qaytim: " +:+ format_currency (StoredOrder.change stored_order)]) ++
   (if StoredOrder.balance stored_order =? 0 then []
    else ["Qarz: " +:+ format_currency (StoredOrder.balance stored_order)]))%list.

(** ["\n".join(lines)] *)
Fixpoint join_lines (lines : list string) : string :=
  match lines with
  | [] => ""
  | [line] => line
  | line :: rest => line +:+ String "010"%char (join_lines rest)
  end.

(** The text sent for a reply, if any. *)
Definition reply_text (r : reply) : option string :=
  match r with
  | NoReply => None
  | ReplyText text => Some text
  | Receipt stored_order total discount =>
      Some (join_lines (receipt_lines stored_order total discount))
  end.

(** The lines of the report built by [summary]. *)
Definition summary_lines (summary : OrdersSummary.t) : list string :=
  ["<b>Kunlik hisobot</b>";
   "Buyurtmalar soni: " +:+ int_text (OrdersSummary.total_orders summary);
   "Jami tushum: " +:+ format_currency (OrdersSummary.total_amount summary);
   "Olingan to'lovlar: " +:+ format_currency (OrdersSummary.total_paid summary);
   "Qaytim berilgan: " +:+ format_currency (OrdersSummary.total_change summary);
   "Qarzdorlik: " +:+ format_currency (OrdersSummary.total_balance summary)].

(** [summary]: the report for [today], the value of [date.today()]. *)
Definition summary (db : Database.t) (today : date.t) : result string :=
  s ← summarize db (Some today);
  Ok (join_lines (summary_lines s)).

(** The value of the digits of a text, read in order; other characters
    are passed over. *)
Fixpoint digits_value_from (acc : Z) (s : string) : Z :=
  match s with
  | "" => acc
  | String c s' =>
      digits_value_from (match digit_of c with Some d => 10 * acc + d | None => acc end) s'
  end.

Definition digits_value (s : string) : Z := digits_value_from 0 s.

Definition starts_with_minus (s : string) : bool :=
  match s with
  | String c _ => Ascii.eqb c "-"
  | "" => false
  end.


(** ** config.py *)

Module Settings.
Record t := mk {
  bot_token : string;
  webapp_url : string;
  webapp_host : string;
  webapp_port : Z;
  database_path : string }.
End Settings.

(** How [Settings.from_env] can fail: the [RuntimeError] for a missing
    variable, the [ValueError] of [int] on the port, or an error while
    the path is expanded and its parent directory created. *)
Inductive startup_error :=
  | RuntimeError (msg : string)
  | PortValueError
  | PathError.

Inductive startup :=
  | Started (settings : Settings.t)
  | Failed (error : startup_error).

Section from_env.

(** What the environment variables alone do not decide: [int] on a
    text, and [expanduser] followed by [mkdir] of the parent, which
    give the path to use or fail. *)
Variable int_of_text : string -> option Z.
Variable prepare_path : string -> option string.

(** [os.environ.get(key, default)] *)
Definition environ_get (environ : gmap string string) (key default : string) : string :=
  match environ !! key with
  | Some value => value
  | None => default
  end.

(** [Settings.from_env]; [not value] holds of an unset and of an empty
    variable. *)
Definition from_env (environ : gmap string string) : startup :=
  match environ !! "BOT_TOKEN" with
  | None | Some "" => Failed (RuntimeError "BOT_TOKEN environment variable is required")
  | Some bot_token =>
      match environ !! "WEBAPP_URL" with
      | None | Some "" =>
          Failed (RuntimeError "WEBAPP_URL environment variable is required")
      | Some webapp_url =>
          let webapp_host := environ_get environ "WEBAPP_HOST" "0.0.0.0" in
          match int_of_text (environ_get environ "WEBAPP_PORT" "8000") with
          | None => Failed PortValueError
          | Some webapp_port =>
              match prepare_path (environ_get environ "DATABASE_PATH" "./data/orders.db") with
              | None => Failed PathError
              | Some database_path =>
                  Started (Settings.mk bot_token webapp_url webapp_host webapp_port
                             database_path)
              end
          end
      end
  end.

End from_env.

(** A variable that is set to a non-empty text. *)
Definition is_set (environ : gmap string string) (key : string) : Prop :=
  exists value, environ !! key = Some value /\ value <> "".

(** A text with a whitespace character at its start, or at its end. *)
Definition starts_with_whitespace (s : string) : Prop :=
  is_Some (drop_any whitespace s).

Definition ends_with_whitespace (s : string) : Prop :=
  is_Some (drop_any (map String.rev whitespace) (String.rev s)).

(** ** Invariants of the stored data *)

(** What every row written by [record_order] satisfies: [created_at] is
    the text of a timestamp, and no id exceeds the AUTOINCREMENT
    counter. *)
Definition row_wf (db : Database.t) (row : OrderRow.t) : Prop :=
  (exists dt, valid_datetime dt = true /\ OrderRow.created_at row = isoformat dt) /\
  OrderRow.id row <= Database.orders_seq db.

Definition store_wf (db : Database.t) : Prop :=
  Forall (row_wf db) (Database.orders db) /\
  Forall (fun item => ItemRow.order_id item <= Database.orders_seq db)
         (Database.order_items db).

(** The rows [record_order] writes for an order: one row of [orders]
    under the next id, and one row of [order_items] per item, in order. *)
Definition order_row (order_id : Z) (order : StoredOrder.t) : OrderRow.t :=
  OrderRow.mk order_id (StoredOrder.chat_id order) (StoredOrder.username order)
    (StoredOrder.customer order)
    (store_numeric (StoredOrder.discount order))
    (store_numeric (StoredOrder.paid order))
    (store_numeric (StoredOrder.total order))
    (store_numeric (StoredOrder.change order))
    (store_numeric (StoredOrder.balance order))
    (isoformat (StoredOrder.created_at order)).

Fixpoint item_rows (seq order_id : Z) (items : list StoredOrderItem.t) : list ItemRow.t :=
  match items with
  | [] => []
  | item :: rest =>
      ItemRow.mk (seq + 1) order_id (StoredOrderItem.menu_id item)
        (StoredOrderItem.name item) (StoredOrderItem.quantity item)
        (store_numeric (StoredOrderItem.unit_price item))
        (store_numeric (StoredOrderItem.subtotal item))
      :: item_rows (seq + 1) order_id rest
  end.

(** The database with the order and all of its items added. *)
Definition persist (db : Database.t) (order : StoredOrder.t) : Database.t :=
  let order_id := Database.orders_seq db + 1 in
  Database.mk
    (Database.orders db ++ [order_row order_id order])
    (Database.order_items db ++
       item_rows (Database.order_items_seq db) order_id (StoredOrder.items order))
    order_id
    (Database.order_items_seq db + Z.of_nat (length (StoredOrder.items order))).

(** The integers of an order all fit the INTEGER columns. *)
Definition ints_fit (order : StoredOrder.t) : bool :=
  int64 (StoredOrder.chat_id order) &&
  forallb (fun item => int64 (StoredOrderItem.quantity item)) (StoredOrder.items order).






(** Exact sums, and the lists whose sums the 28-digit context does not
    round at any step. *)
Definition exact_sum (xs : list Z) : Z := fold_right Z.add 0 xs.


(** The price the catalogue gives for an id (0 for an unknown id). *)
Definition catalogue_price (id : string) : Z :=
  match MENU_BY_ID !! id with
  | Some menu_item => MenuItem.price menu_item
  | None => 0
  end.

(** The exact gross total of a request. *)
Definition exact_gross (order : OrderRequest.t) : Z :=
  exact_sum
    (map (fun r => catalogue_price (OrderItemRequest.id r) * OrderItemRequest.quantity r)
         (OrderRequest.items order)).

(** The line the calculator returns for a requested item. *)
Definition priced_line (r : OrderItemRequest.t) (line : StoredOrderItem.t) : Prop :=
  exists menu_item,
    MENU_BY_ID !! OrderItemRequest.id r = Some menu_item /\
    StoredOrderItem.menu_id line = OrderItemRequest.id r /\
    StoredOrderItem.name line = MenuItem.name menu_item /\
    StoredOrderItem.quantity line = OrderItemRequest.quantity r /\
    StoredOrderItem.unit_price line = MenuItem.price menu_item /\
    StoredOrderItem.subtotal line =
      MenuItem.price menu_item * OrderItemRequest.quantity r.

(** What the schema asks of a payload, field by field: [request] is the
    reading of [raw]. *)
Definition item_accepted (j : json) (item : OrderItemRequest.t) : Prop :=
  exists members i q,
    j = JObject members /\
    members !! "id" = Some i /\ str_field i = Some (OrderItemRequest.id item) /\
    members !! "quantity" = Some q /\
    int_field q = Some (OrderItemRequest.quantity item) /\
    1 <= OrderItemRequest.quantity item.

Definition optional_str (members : gmap string json) (key value : string) : Prop :=
  match members !! key with
  | None => value = ""
  | Some j => str_field j = Some value
  end.

Definition optional_amount (members : gmap string json) (key : string) (value : Z) : Prop :=
  match members !! key with
  | None => value = 0
  | Some j => int_field j = Some value /\ 0 <= value
  end.

Definition accepted_payload (raw : payload) (request : OrderRequest.t) : Prop :=
  exists members xs,
    raw = Json (JObject members) /\
    members !! "items" = Some (JArray xs) /\ xs <> [] /\
    Forall2 item_accepted xs (OrderRequest.items request) /\
    optional_str members "customer" (OrderRequest.customer request) /\
    optional_amount members "discount" (OrderRequest.discount request) /\
    optional_amount members "paid" (OrderRequest.paid request).


Global Instance date_eq_dec : EqDecision date.t.
Proof. solve_decision. Defined.

(** The line [build_items] computes for a requested item, whatever the
    quantity: the subtotal is the product in 28-digit arithmetic. *)
Definition computed_line (r : OrderItemRequest.t) (line : StoredOrderItem.t) : Prop :=
  exists menu_item,
    MENU_BY_ID !! OrderItemRequest.id r = Some menu_item /\
    StoredOrderItem.menu_id line = OrderItemRequest.id r /\
    StoredOrderItem.name line = MenuItem.name menu_item /\
    StoredOrderItem.quantity line = OrderItemRequest.quantity r /\
    StoredOrderItem.unit_price line = MenuItem.price menu_item /\
    StoredOrderItem.subtotal line =
      dec_mul (MenuItem.price menu_item) (OrderItemRequest.quantity r).

Definition known_id (r : OrderItemRequest.t) : Prop :=
  is_Some (MENU_BY_ID !! OrderItemRequest.id r).

(** The items of a category, as the front end receives them. *)
Definition in_category (category : string) (items : list MenuItem.t) : list MenuItemDict.t :=
  map as_dict (filter (fun item => MenuItem.category item = category) items).

(** The ids of the stored orders are pairwise distinct. *)
Definition distinct_ids (db : Database.t) : Prop :=
  NoDup (map OrderRow.id (Database.orders db)).

(** ** Sample submissions *)

(** [{"id": id, "quantity": quantity}] *)
Definition json_item (id : string) (quantity : Z) : json :=
  JObject (<["id" := JScalar None (Some id)]>
          (<["quantity" := JScalar (Some quantity) None]> ∅)).

(** [{"items": [...], "discount": discount, "paid": paid}] *)
Definition submission (items : list json) (discount paid : Z) : payload :=
  Json (JObject (<["items" := JArray items]>
                (<["discount" := JScalar (Some discount) None]>
                (<["paid" := JScalar (Some paid) None]> ∅)))).

Definition update_from (data : payload) : Update.t :=
  Update.mk (Some data) 77 (Some (Some "bek")).

Definition tea_and_plov : list json := [json_item "tea_green" 2; json_item "plov" 1].

Definition morning : datetime.t := datetime.mk 2024 5 17 10 30 0 0.
Definition noon : datetime.t := datetime.mk 2024 5 17 12 0 0 250000.

(** The request and the order of the scenario "two green teas and a
    plov, paid 40000". *)
Definition sample_request : OrderRequest.t :=
  OrderRequest.mk ""
    [OrderItemRequest.mk "tea_green" 2; OrderItemRequest.mk "plov" 1] 0 40000.

Definition sample_lines : list StoredOrderItem.t :=
  [StoredOrderItem.mk "tea_green" "Ko'k choy" 2 5000 10000;
   StoredOrderItem.mk "plov" "Palov" 1 28000 28000].

Definition sample_order : StoredOrder.t :=
  StoredOrder.mk None 77 (Some "bek") "" 0 40000 38000 2000 0 morning sample_lines.


(** An order with more units of an item than an INTEGER column holds. *)
Definition oversized_order : StoredOrder.t :=
  StoredOrder.mk None 77 None "" 0 0 0 0 0 morning
    [StoredOrderItem.mk "plov" "Palov" (2 ^ 63) 28000 (28000 * 2 ^ 63)].

(** * Properties *)

(** ** Decimal arithmetic *)

Section decimal_facts.

Lemma digits_from_spec fuel : forall k n,
  0 <= k -> 0 <= n ->
  (forall j, 0 <= j < k -> 10 ^ j <= n) ->
  n < 10 ^ (k + Z.of_nat fuel) ->
  k <= digits_from fuel k n /\ n < 10 ^ digits_from fuel k n /\
  (forall j, 0 <= j < digits_from fuel k n -> 10 ^ j <= n).
Proof.
  induction fuel as [|fuel IH]; intros k n Hk Hn Hlow Hup; simpl.
  - replace (k + Z.of_nat 0) with k in Hup by lia. auto with zarith.
  - destruct (Z.ltb_spec n (10 ^ k)) as [Hlt|Hge].
    + auto with zarith.
    + destruct (IH (k + 1) n) as (H1 & H2 & H3); try lia.
      * intros j Hj. destruct (Z.eq_dec j k) as [->|]; [lia|]. apply Hlow. lia.
      * replace (k + 1 + Z.of_nat fuel) with (k + Z.of_nat (S fuel)) by lia. exact Hup.
      * repeat split; auto; lia.
Qed.

Lemma num_digits_spec n :
  0 <= n ->
  0 <= num_digits n /\ n < 10 ^ num_digits n /\
  (forall j, 0 <= j < num_digits n -> 10 ^ j <= n).
Proof.
  intros Hn. unfold num_digits.
  apply (digits_from_spec (S (Z.to_nat (Z.log2 n))) 0 n); try lia.
  replace (0 + Z.of_nat (S (Z.to_nat (Z.log2 n)))) with (Z.succ (Z.log2 n))
    by (pose proof (Z.log2_nonneg n); lia).
  destruct (Z.eq_dec n 0) as [->|Hne].
  - reflexivity.
  - pose proof (Z.log2_spec n ltac:(lia)) as [_ Hlt].
    eapply Z.lt_le_trans; [exact Hlt|].
    apply Z.pow_le_mono_l. pose proof (Z.log2_nonneg n). lia.
Qed.

Lemma round_context_exact v :
  Z.abs v < 10 ^ prec -> round_context v = v.
Proof.
  intros Hv. unfold round_context.
  destruct (Z.leb_spec (num_digits (Z.abs v)) prec) as [|Hgt]; [reflexivity|].
  destruct (num_digits_spec (Z.abs v) ltac:(lia)) as (_ & _ & Hlow).
  specialize (Hlow prec). unfold prec in *. lia.
Qed.

Lemma round_half_even_lower a unit :
  0 < unit -> (a / unit) * unit <= round_half_even a unit.
Proof.
  intros Hu. unfold round_half_even.
  destruct (_ || _); nia.
Qed.

Lemma round_context_pos v : 0 < v -> 0 < round_context v.
Proof.
  intros Hv. unfold round_context.
  destruct (Z.leb_spec (num_digits (Z.abs v)) prec) as [|Hgt]; [lia|].
  destruct (num_digits_spec (Z.abs v) ltac:(lia)) as (_ & _ & Hlow).
  set (d := num_digits (Z.abs v)) in *.
  assert (Hu : 0 < 10 ^ (d - prec)) by (apply Z.pow_pos_nonneg; lia).
  assert (Hle : 10 ^ (d - prec) <= Z.abs v).
  { apply Hlow. unfold prec in *. lia. }
  pose proof (round_half_even_lower (Z.abs v) _ Hu) as Hr.
  assert (1 <= Z.abs v / 10 ^ (d - prec)).
  { apply Z.div_le_lower_bound; lia. }
  rewrite Z.sgn_pos by lia. nia.
Qed.

Lemma round_context_opp v : round_context (- v) = - round_context v.
Proof.
  unfold round_context. rewrite Z.abs_opp, Z.sgn_opp.
  destruct (_ <=? _); lia.
Qed.

Lemma round_context_neg v : v < 0 -> round_context v < 0.
Proof.
  intros Hv. pose proof (round_context_pos (- v) ltac:(lia)) as H.
  rewrite round_context_opp in H. lia.
Qed.

Lemma round_context_0 : round_context 0 = 0.
Proof. reflexivity. Qed.

Lemma round_context_nonneg v : 0 <= v -> 0 <= round_context v.
Proof.
  intros Hv. destruct (Z.eq_dec v 0) as [->|]; [rewrite round_context_0; lia|].
  pose proof (round_context_pos v). lia.
Qed.



End decimal_facts.

(** ** float and NUMERIC cells *)

Section float_facts.



End float_facts.

(** ** ISO 8601 text: order and round trip *)

Section text_facts.

Lemma append_cons c s t : String c s +:+ t = String c (s +:+ t).
Proof. reflexivity. Qed.

Lemma append_empty_r s : s +:+ "" = s.
Proof. induction s as [|c s IH]; [reflexivity|]. rewrite append_cons, IH. reflexivity. Qed.

Lemma compare_cons c1 c2 s1 s2 :
  String.compare (String c1 s1) (String c2 s2) =
  match Ascii.compare c1 c2 with
  | Eq => String.compare s1 s2
  | c => c
  end.
Proof. simpl. destruct (Ascii.compare c1 c2); reflexivity. Qed.

Lemma compare_same_head c s1 s2 :
  String.compare (String c s1) (String c s2) = String.compare s1 s2.
Proof.
  rewrite compare_cons. unfold Ascii.compare. rewrite N.compare_refl. reflexivity.
Qed.

Lemma compare_refl s : String.compare s s = Eq.
Proof. induction s as [|c s IH]; [reflexivity|]. rewrite compare_same_head. exact IH. Qed.

Lemma digit_cases d :
  0 <= d <= 9 ->
  d = 0 \/ d = 1 \/ d = 2 \/ d = 3 \/ d = 4 \/ d = 5 \/ d = 6 \/ d = 7 \/ d = 8 \/ d = 9.
Proof. lia. Qed.

Lemma N_of_digit_char d :
  0 <= d <= 9 -> N_of_ascii (digit_char d) = Z.to_N (48 + d).
Proof.
  intros Hd. destruct (digit_cases d Hd) as [->|[->|[->|[->|[->|[->|[->|[->|[->| ->]]]]]]]]];
    reflexivity.
Qed.

Lemma digit_char_compare a b :
  0 <= a <= 9 -> 0 <= b <= 9 ->
  Ascii.compare (digit_char a) (digit_char b) = (a ?= b).
Proof.
  intros Ha Hb. unfold Ascii.compare.
  rewrite !N_of_digit_char by assumption.
  rewrite (Z2N.inj_compare (48 + a) (48 + b)) by lia.
  destruct (Z.compare_spec (48 + a) (48 + b)), (Z.compare_spec a b);
    try reflexivity; lia.
Qed.

Lemma digit_of_digit_char d : 0 <= d <= 9 -> digit_of (digit_char d) = Some d.
Proof.
  intros Hd. destruct (digit_cases d Hd) as [->|[->|[->|[->|[->|[->|[->|[->|[->| ->]]]]]]]]];
    reflexivity.
Qed.

Lemma split_digit w n :
  0 <= n < 10 ^ Z.of_nat (S w) ->
  0 <= n / 10 ^ Z.of_nat w <= 9 /\ 0 <= n mod 10 ^ Z.of_nat w < 10 ^ Z.of_nat w /\
  n = 10 ^ Z.of_nat w * (n / 10 ^ Z.of_nat w) + n mod 10 ^ Z.of_nat w.
Proof.
  intros Hn.
  assert (Hp : 0 < 10 ^ Z.of_nat w) by (apply Z.pow_pos_nonneg; lia).
  replace (10 ^ Z.of_nat (S w)) with (10 ^ Z.of_nat w * 10) in Hn
    by (rewrite Nat2Z.inj_succ, Z.pow_succ_r by lia; lia).
  pose proof (Z.div_mod n (10 ^ Z.of_nat w) ltac:(lia)) as Hdm.
  pose proof (Z.mod_pos_bound n (10 ^ Z.of_nat w) Hp) as Hmod.
  repeat split; try lia.
  - apply Z.div_pos; lia.
  - assert (n / 10 ^ Z.of_nat w < 10); [|lia].
    apply Z.div_lt_upper_bound; lia.
Qed.

(** Zero-padded numbers of one width compare as the numbers do. *)
Lemma pad_compare w : forall n m s t,
  0 <= n < 10 ^ Z.of_nat w -> 0 <= m < 10 ^ Z.of_nat w ->
  String.compare (pad w n +:+ s) (pad w m +:+ t) =
  match n ?= m with
  | Eq => String.compare s t
  | c => c
  end.
Proof.
  induction w as [|w IH]; intros n m s t Hn Hm.
  - simpl in Hn, Hm. assert (n = 0) as -> by lia. assert (m = 0) as -> by lia.
    reflexivity.
  - destruct (split_digit w n Hn) as (Hqn & Hrn & En).
    destruct (split_digit w m Hm) as (Hqm & Hrm & Em).
    cbn [pad]. rewrite !append_cons, compare_cons.
    rewrite digit_char_compare by assumption.
    rewrite IH by assumption.
    set (P := 10 ^ Z.of_nat w) in *.
    set (qn := n / P) in *. set (qm := m / P) in *.
    set (rn := n mod P) in *. set (rm := m mod P) in *.
    destruct (Z.compare_spec qn qm) as [Hq|Hq|Hq].
    + destruct (Z.compare_spec rn rm) as [Hr|Hr|Hr];
        destruct (Z.compare_spec n m); try reflexivity; nia.
    + destruct (Z.compare_spec n m); try reflexivity; nia.
    + destruct (Z.compare_spec n m); try reflexivity; nia.
Qed.

Lemma read_digits_pad w : forall n acc rest,
  0 <= n < 10 ^ Z.of_nat w ->
  read_digits w acc (pad w n +:+ rest) = Some (acc * 10 ^ Z.of_nat w + n, rest).
Proof.
  induction w as [|w IH]; intros n acc rest Hn.
  - simpl in Hn. assert (n = 0) as -> by lia. simpl. f_equal. f_equal. lia.
  - destruct (split_digit w n Hn) as (Hq & Hr & En).
    cbn [pad]. rewrite append_cons. cbn [read_digits].
    rewrite digit_of_digit_char by assumption. cbn [mbind option_bind].
    rewrite IH by assumption. f_equal. f_equal.
    rewrite Nat2Z.inj_succ, Z.pow_succ_r by lia.
    set (P := 10 ^ Z.of_nat w) in *. nia.
Qed.

End text_facts.

Section isoformat_facts.

Local Opaque pad.

Lemma days_in_month_le y m : days_in_month y m <= 31.
Proof.
  unfold days_in_month.
  destruct (m =? 2); [destruct (is_leap y); lia|].
  destruct (_ || _); lia.
Qed.

Lemma valid_date_ranges d :
  valid_date d = true ->
  1 <= date.year d <= 9999 /\ 1 <= date.month d <= 12 /\ 1 <= date.day d <= 31.
Proof.
  unfold valid_date. rewrite !andb_true_iff, !Z.leb_le.
  pose proof (days_in_month_le (date.year d) (date.month d)). lia.
Qed.

Lemma valid_datetime_ranges dt :
  valid_datetime dt = true ->
  (1 <= datetime.year dt <= 9999 /\ 1 <= datetime.month dt <= 12 /\
   1 <= datetime.day dt <= 31) /\
  0 <= datetime.hour dt <= 23 /\ 0 <= datetime.minute dt <= 59 /\
  0 <= datetime.second dt <= 59 /\ 0 <= datetime.microsecond dt <= 999999.
Proof.
  unfold valid_datetime. rewrite andb_true_iff. intros [Hd Ht].
  apply valid_date_ranges in Hd. split; [exact Hd|].
  unfold valid_time in Ht. cbn [time.hour time.minute time.second time.microsecond] in Ht.
  rewrite !andb_true_iff, !Z.leb_le in Ht. lia.
Qed.

Lemma valid_combine d tm :
  valid_date d = true -> valid_time tm = true ->
  valid_datetime (datetime.combine d tm) = true.
Proof.
  intros Hd Ht. unfold valid_datetime. apply andb_true_intro. split.
  - destruct d; exact Hd.
  - destruct tm; exact Ht.
Qed.

Lemma field_compare w n m c s t :
  0 <= n < 10 ^ Z.of_nat w -> 0 <= m < 10 ^ Z.of_nat w ->
  String.compare (pad w n +:+ String c "" +:+ s) (pad w m +:+ String c "" +:+ t) =
  match n ?= m with
  | Eq => String.compare s t
  | r => r
  end.
Proof.
  intros Hn Hm. rewrite pad_compare by assumption.
  rewrite !append_cons. rewrite compare_same_head. reflexivity.
Qed.

Lemma fraction_compare a b :
  0 <= a < 10 ^ 6 -> 0 <= b < 10 ^ 6 ->
  String.compare (fraction a) (fraction b) = (a ?= b).
Proof.
  intros Ha Hb. unfold fraction.
  destruct (Z.eqb_spec a 0) as [->|Ha0]; destruct (Z.eqb_spec b 0) as [->|Hb0].
  - reflexivity.
  - rewrite append_cons. destruct (Z.compare_spec 0 b); try reflexivity; lia.
  - rewrite append_cons. destruct (Z.compare_spec a 0); try reflexivity; lia.
  - rewrite !append_cons, compare_same_head.
    change ("" +:+ pad 6 a) with (pad 6 a). change ("" +:+ pad 6 b) with (pad 6 b).
    rewrite <- (append_empty_r (pad 6 a)), <- (append_empty_r (pad 6 b)).
    rewrite pad_compare by (simpl; lia).
    destruct (a ?= b); reflexivity.
Qed.

(** The bytewise order of the stored texts is the order of the
    timestamps. *)
Lemma isoformat_compare a b :
  valid_datetime a = true -> valid_datetime b = true ->
  String.compare (isoformat a) (isoformat b) = datetime_compare a b.
Proof.
  intros Ha Hb.
  apply valid_datetime_ranges in Ha. apply valid_datetime_ranges in Hb.
  unfold isoformat, datetime_compare, datetime.key.
  cbn [compare_fields].
  rewrite !field_compare by (simpl; lia).
  rewrite pad_compare by (simpl; lia).
  rewrite fraction_compare by (simpl; lia).
  repeat (match goal with |- context [?x ?= ?y] => destruct (x ?= y) end; try reflexivity).
Qed.

Lemma isoformat_le a b :
  valid_datetime a = true -> valid_datetime b = true ->
  String.le (isoformat a) (isoformat b) <-> datetime_le a b.
Proof.
  intros Ha Hb. unfold String.le, String.leb, datetime_le.
  rewrite isoformat_compare by assumption.
  destruct (datetime_compare a b); simpl; intuition congruence.
Qed.

Lemma read_field w n rest :
  0 <= n < 10 ^ Z.of_nat w ->
  read_digits w 0 (pad w n +:+ rest) = Some (n, rest).
Proof. intros Hn. rewrite read_digits_pad by assumption. reflexivity. Qed.

Lemma expect_sep c rest : expect c (String c "" +:+ rest) = Some rest.
Proof. rewrite append_cons. simpl. rewrite Ascii.eqb_refl. reflexivity. Qed.

(** Reading back the text of a timestamp gives the timestamp. *)
Lemma fromisoformat_isoformat dt :
  valid_datetime dt = true -> fromisoformat (isoformat dt) = Some dt.
Proof.
  intros Hv. pose proof (valid_datetime_ranges dt Hv) as Hr.
  destruct dt as [y m d hh mm ss us].
  cbn [datetime.year datetime.month datetime.day datetime.hour datetime.minute
       datetime.second datetime.microsecond] in Hr.
  unfold fromisoformat, isoformat.
  cbn [datetime.year datetime.month datetime.day datetime.hour datetime.minute
       datetime.second datetime.microsecond].
  repeat (rewrite read_field by (simpl; lia); cbn [mbind option_bind];
          rewrite expect_sep; cbn [mbind option_bind]).
  rewrite read_field by (simpl; lia). cbn [mbind option_bind].
  unfold fraction.
  destruct (Z.eqb_spec us 0) as [->|Hus].
  - cbn [mbind option_bind]. rewrite Hv. reflexivity.
  - rewrite append_cons. cbn [mbind option_bind Ascii.eqb Bool.eqb].
    change ("" +:+ pad 6 us) with (pad 6 us).
    rewrite <- (append_empty_r (pad 6 us)).
    rewrite read_field by (simpl in *; lia). cbn [mbind option_bind].
    rewrite Hv. reflexivity.
Qed.

End isoformat_facts.

Section day_window.

Lemma compare_fields_cons_le x y a b :
  compare_fields (x :: a) (y :: b) <> Gt <->
  x < y \/ (x = y /\ compare_fields a b <> Gt).
Proof.
  cbn [compare_fields].
  destruct (Z.compare_spec x y); intuition (try congruence; try lia).
Qed.

Lemma compare_fields_nil_le : compare_fields [] [] <> Gt <-> True.
Proof. simpl. intuition congruence. Qed.

Lemma datetime_le_fields a b :
  datetime_le a b <-> compare_fields (datetime.key a) (datetime.key b) <> Gt.
Proof. reflexivity. Qed.

(** [BETWEEN] the first and the last text of a day selects the
    timestamps of that day. *)
Lemma between_day dt d :
  valid_datetime dt = true -> valid_date d = true ->
  between (isoformat dt)
    (isoformat (datetime.combine d time.min))
    (isoformat (datetime.combine d time.max)) = true <->
  datetime.date dt = d.
Proof.
  intros Hdt Hd.
  assert (Hmin : valid_datetime (datetime.combine d time.min) = true)
    by (apply valid_combine; [assumption|reflexivity]).
  assert (Hmax : valid_datetime (datetime.combine d time.max) = true)
    by (apply valid_combine; [assumption|reflexivity]).
  unfold between. rewrite andb_true_iff.
  rewrite <- !Is_true_true.
  change (Is_true (String.leb ?a ?b)) with (String.le a b).
  rewrite !isoformat_le by assumption.
  rewrite !datetime_le_fields.
  pose proof (valid_datetime_ranges dt Hdt) as Hr.
  destruct dt as [y m dd hh mm ss us], d as [Y M D].
  unfold datetime.key, datetime.combine, datetime.date, time.min, time.max.
  cbn [datetime.year datetime.month datetime.day datetime.hour datetime.minute
       datetime.second datetime.microsecond date.year date.month date.day
       time.hour time.minute time.second time.microsecond] in *.
  rewrite !compare_fields_cons_le, compare_fields_nil_le.
  split.
  - intros H. assert (y = Y /\ m = M /\ dd = D) as (-> & -> & ->) by lia. reflexivity.
  - intros [= -> -> ->]. lia.
Qed.

End day_window.

(** ** The order store *)

Section mapM_facts.
Context {A B : Type} (f : A -> result B).

Lemma mapM_cons x l :
  mapM f (x :: l) =
  match f x with
  | Ok y => match mapM f l with Ok k => Ok (y :: k) | Raise e => Raise e end
  | Raise e => Raise e
  end.
Proof. reflexivity. Qed.

Lemma mapM_Ok l : forall k,
  mapM f l = Ok k <-> Forall2 (fun x y => f x = Ok y) l k.
Proof.
  induction l as [|x l IH]; intros k.
  - split.
    + intros [= <-]. constructor.
    + intros H. inversion H. reflexivity.
  - rewrite mapM_cons. split.
    + destruct (f x) as [y|e] eqn:Hx; [|discriminate].
      destruct (mapM f l) as [k'|e] eqn:Hl; [|discriminate].
      intros [= <-]. constructor; [assumption|]. apply IH. reflexivity.
    + intros H. inversion H as [|? y ? k' Hx Hl]; subst.
      rewrite Hx. apply IH in Hl. rewrite Hl. reflexivity.
Qed.

Lemma mapM_total l :
  Forall (fun x => exists y, f x = Ok y) l -> exists k, mapM f l = Ok k.
Proof.
  induction 1 as [|x l [y Hy] _ [k Hk]].
  - exists []. reflexivity.
  - exists (y :: k). rewrite mapM_cons, Hy, Hk. reflexivity.
Qed.
End mapM_facts.

Section relate_lists.
Context {A B : Type} (R : A -> B -> Prop).


End relate_lists.

Section record_order_facts.

Lemma insert_items_committed items : forall conn order_id conn',
  insert_items conn order_id items = Ok conn' ->
  Connection.committed conn' = Connection.committed conn.
Proof.
  induction items as [|item rest IH]; intros conn order_id conn' H; simpl in H.
  - injection H as <-. reflexivity.
  - unfold insert_item in H.
    destruct (bind_int (StoredOrderItem.quantity item)) as [q|e]; [|discriminate].
    cbn [mbind result_bind] in H. apply IH in H. exact H.
Qed.

Lemma insert_items_ok items : forall conn order_id,
  forallb (fun item => int64 (StoredOrderItem.quantity item)) items = true ->
  insert_items conn order_id items =
  Ok (Connection.mk (Connection.committed conn)
        (Database.mk
           (Database.orders (Connection.working conn))
           (Database.order_items (Connection.working conn) ++
              item_rows (Database.order_items_seq (Connection.working conn))
                order_id items)
           (Database.orders_seq (Connection.working conn))
           (Database.order_items_seq (Connection.working conn) +
              Z.of_nat (length items)))).
Proof.
  induction items as [|item rest IH]; intros [c [os its oseq iseq]] order_id Hq.
  - simpl. rewrite app_nil_r, Z.add_0_r. reflexivity.
  - simpl in Hq. apply andb_true_iff in Hq as [Hq Hrest].
    cbn [insert_items]. unfold insert_item, bind_int. rewrite Hq.
    cbn [mbind result_bind]. rewrite IH by assumption.
    cbn [Connection.committed Connection.working Database.orders
         Database.order_items Database.orders_seq Database.order_items_seq
         item_rows length].
    rewrite <- app_assoc. cbn [app].
    do 3 f_equal. lia.
Qed.

Lemma insert_items_overflow items : forall conn order_id,
  forallb (fun item => int64 (StoredOrderItem.quantity item)) items = false ->
  exists msg, insert_items conn order_id items = Raise (OverflowError msg).
Proof.
  induction items as [|item rest IH]; intros conn order_id Hq; [discriminate|].
  simpl in Hq. cbn [insert_items]. unfold insert_item, bind_int.
  destruct (int64 (StoredOrderItem.quantity item)) eqn:Hi.
  - cbn [mbind result_bind]. apply IH. exact Hq.
  - eexists. reflexivity.
Qed.

Lemma record_order_ok db order :
  ints_fit order = true ->
  record_order db order =
  (persist db order, Ok (StoredOrder.with_id order (Database.orders_seq db + 1))).
Proof.
  unfold ints_fit. rewrite andb_true_iff. intros [Hc Hq].
  unfold record_order, insert_order, bind_int. rewrite Hc.
  cbn [mbind result_bind]. rewrite insert_items_ok by assumption.
  reflexivity.
Qed.

Lemma record_order_overflow db order :
  ints_fit order = false ->
  exists msg, record_order db order = (db, Raise (OverflowError msg)).
Proof.
  unfold ints_fit. intros H.
  unfold record_order, insert_order, bind_int.
  destruct (int64 (StoredOrder.chat_id order)) eqn:Hc.
  - simpl in H. cbn [mbind result_bind].
    edestruct insert_items_overflow as [msg Hmsg]; [exact H|].
    rewrite Hmsg. eexists. reflexivity.
  - eexists. reflexivity.
Qed.

Lemma item_rows_order_id items : forall seq order_id,
  Forall (fun row => ItemRow.order_id row = order_id) (item_rows seq order_id items).
Proof.
  induction items as [|item rest IH]; intros seq order_id; simpl; constructor; auto.
Qed.

Lemma row_wf_mono db db' row :
  Database.orders_seq db <= Database.orders_seq db' ->
  row_wf db row -> row_wf db' row.
Proof. intros Hs [Ht Hid]. split; [exact Ht|lia]. Qed.

Lemma persist_wf db order :
  store_wf db -> valid_datetime (StoredOrder.created_at order) = true ->
  store_wf (persist db order).
Proof.
  intros [Ho Hi] Hv. split; cbn [persist Database.orders Database.order_items
                                    Database.orders_seq].
  - apply Forall_app. split.
    + eapply Forall_impl; [exact Ho|]. intros row. apply row_wf_mono. simpl. lia.
    + constructor; [|constructor]. split.
      * exists (StoredOrder.created_at order). split; [assumption|reflexivity].
      * simpl. lia.
  - apply Forall_app. split.
    + eapply Forall_impl; [exact Hi|]. intros row. simpl. lia.
    + eapply Forall_impl; [apply item_rows_order_id|]. intros row ->. lia.
Qed.

Lemma empty_wf : store_wf Database.empty.
Proof. split; constructor. Qed.

End record_order_facts.

Section list_orders_facts.

#[local] Instance created_at_le_total : Total created_at_le.
Proof. intros r1 r2. unfold created_at_le. apply String.le_total. Qed.

Lemma select_orders_all db :
  select_orders db None ≡ₚ Database.orders db.
Proof. unfold select_orders. apply merge_sort_Permutation. Qed.

Lemma select_orders_day db d :
  select_orders db (Some d) ≡ₚ
  filter (fun row =>
            between (OrderRow.created_at row)
              (isoformat (datetime.combine d time.min))
              (isoformat (datetime.combine d time.max)) = true)
         (Database.orders db).
Proof. unfold select_orders. apply merge_sort_Permutation. Qed.


Lemma select_orders_wf db day :
  store_wf db -> Forall (row_wf db) (select_orders db day).
Proof.
  intros [Ho _]. destruct day as [d|].
  - rewrite select_orders_day. apply Forall_forall.
    intros row [_ Hin]%list_elem_of_filter. revert row Hin.
    apply Forall_forall. exact Ho.
  - rewrite select_orders_all. exact Ho.
Qed.








End list_orders_facts.


Section round_trip.

Lemma filter_none {A} (P : A -> Prop) `{forall x, Decision (P x)} (l : list A) :
  Forall (fun x => ~ P x) l -> filter P l = [].
Proof.
  induction 1 as [|x l Hx _ IH]; [reflexivity|].
  rewrite filter_cons. destruct (decide (P x)); [contradiction|exact IH].
Qed.








End round_trip.


(** C9 (amended): when the chat id and every item quantity fit a signed
    64-bit INTEGER, [record_order] returns the order with the next id
    and every other field unchanged, and the file holds the order row
    and all item rows; otherwise it raises [OverflowError] and the file
    is as before (nothing of the order is kept). *)
Theorem record_order_all_or_none db order :
  (ints_fit order = true ->
   exists stored,
     record_order db order = (persist db order, Ok stored) /\
     StoredOrder.id stored = Some (Database.orders_seq db + 1) /\
     StoredOrder.chat_id stored = StoredOrder.chat_id order /\
     StoredOrder.username stored = StoredOrder.username order /\
     StoredOrder.customer stored = StoredOrder.customer order /\
     StoredOrder.discount stored = StoredOrder.discount order /\
     StoredOrder.paid stored = StoredOrder.paid order /\
     StoredOrder.total stored = StoredOrder.total order /\
     StoredOrder.change stored = StoredOrder.change order /\
     StoredOrder.balance stored = StoredOrder.balance order /\
     StoredOrder.created_at stored = StoredOrder.created_at order /\
     StoredOrder.items stored = StoredOrder.items order /\
     length (Database.orders (persist db order)) = S (length (Database.orders db)) /\
     length (Database.order_items (persist db order)) =
       (length (Database.order_items db) + length (StoredOrder.items order))%nat) /\
  (ints_fit order = false ->
   exists msg, record_order db order = (db, Raise (OverflowError msg))).
Proof.
  split.
  - intros Hfit. exists (StoredOrder.with_id order (Database.orders_seq db + 1)).
    split; [apply record_order_ok; exact Hfit|].
    repeat (split; [reflexivity|]).
    cbn [persist Database.orders Database.order_items]. rewrite !length_app.
    split; [simpl; lia|]. f_equal.
    generalize (Database.order_items_seq db).
    induction (StoredOrder.items order) as [|item rest IH]; intros seq; simpl; auto.
  - apply record_order_overflow.
Qed.

(** ** The menu catalogue *)

Section menu_facts.

Lemma fold_insert_lookup (l : list MenuItem.t) : forall (m0 : gmap string MenuItem.t) id item,
  fold_left (fun m it => <[MenuItem.id it := it]> m) l m0 !! id = Some item ->
  (In item l /\ MenuItem.id item = id) \/ m0 !! id = Some item.
Proof.
  induction l as [|it l IH]; intros m0 id item H; simpl in H.
  - right. exact H.
  - apply IH in H as [[Hin Hid]|H].
    + left. split; [right; exact Hin|exact Hid].
    + destruct (decide (MenuItem.id it = id)) as [Heq|Hne].
      * rewrite <- Heq, lookup_insert_eq in H. injection H as <-.
        left. split; [left; reflexivity|exact Heq].
      * rewrite lookup_insert_ne in H by exact Hne. right. exact H.
Qed.

(** Every entry of [MENU_BY_ID] is an item of [MENU], filed under its
    own id. *)
Lemma MENU_BY_ID_lookup id item :
  MENU_BY_ID !! id = Some item -> In item MENU /\ MenuItem.id item = id.
Proof.
  intros H. apply fold_insert_lookup in H as [H|H]; [exact H|].
  rewrite lookup_empty in H. discriminate.
Qed.

Lemma MENU_prices item : In item MENU -> 0 < MenuItem.price item <= 28000.
Proof.
  intros Hin. unfold MENU in Hin. simpl in Hin.
  repeat (destruct Hin as [<-|Hin]; [simpl; lia|]). contradiction.
Qed.

Lemma catalogue_price_nonneg id : 0 <= catalogue_price id.
Proof.
  unfold catalogue_price. destruct (MENU_BY_ID !! id) as [item|] eqn:H; [|lia].
  apply MENU_BY_ID_lookup in H as [Hin _]. apply MENU_prices in Hin. lia.
Qed.

End menu_facts.

(** ** The order calculator *)

Section build_items_facts.

Lemma build_items_loop_exact reqs : forall items total,
  Forall (fun r => is_Some (MENU_BY_ID !! OrderItemRequest.id r) /\
                   0 <= OrderItemRequest.quantity r) reqs ->
  0 <= total ->
  total + exact_sum
    (map (fun r => catalogue_price (OrderItemRequest.id r) * OrderItemRequest.quantity r)
         reqs) < 10 ^ prec ->
  exists lines,
    build_items_loop reqs items total =
      Ok ((items ++ lines)%list,
          total + exact_sum
            (map (fun r => catalogue_price (OrderItemRequest.id r) *
                           OrderItemRequest.quantity r) reqs)) /\
    Forall2 priced_line reqs lines.
Proof.
  induction reqs as [|r reqs IH]; intros items total Hreqs Ht Hb.
  - exists []. simpl. rewrite app_nil_r, Z.add_0_r. split; [reflexivity|constructor].
  - inversion Hreqs as [|? ? [[menu_item Hm] Hq] Hrest]; subst.
    assert (Hrest_nn : 0 <= exact_sum
      (map (fun r => catalogue_price (OrderItemRequest.id r) * OrderItemRequest.quantity r)
           reqs)).
    { clear -Hrest. induction Hrest as [|x l [_ Hx] _ IHl]; simpl; [lia|].
      pose proof (catalogue_price_nonneg (OrderItemRequest.id x)). nia. }
    cbn [map exact_sum fold_right] in Hb |- *.
    fold (exact_sum (map (fun r => catalogue_price (OrderItemRequest.id r) *
                                   OrderItemRequest.quantity r) reqs)) in Hb |- *.
    assert (Hprice : catalogue_price (OrderItemRequest.id r) = MenuItem.price menu_item).
    { unfold catalogue_price. rewrite Hm. reflexivity. }
    pose proof (catalogue_price_nonneg (OrderItemRequest.id r)) as Hp.
    rewrite Hprice in Hb, Hp |- *.
    cbn [build_items_loop]. rewrite Hm.
    unfold dec_mul, dec_add, Decimal_of_int.
    assert (Hprod : 0 <= MenuItem.price menu_item * OrderItemRequest.quantity r) by nia.
    rewrite (round_context_exact (MenuItem.price menu_item * _)) by lia.
    rewrite round_context_exact by lia.
    destruct (IH (items ++
                [StoredOrderItem.mk (MenuItem.id menu_item) (MenuItem.name menu_item)
                   (OrderItemRequest.quantity r) (MenuItem.price menu_item)
                   (MenuItem.price menu_item * OrderItemRequest.quantity r)])%list
                (total + MenuItem.price menu_item * OrderItemRequest.quantity r)
                Hrest ltac:(lia) ltac:(lia)) as (lines & Hloop & Hlines).
    eexists (_ :: lines). rewrite Hloop, <- app_assoc. cbn [app].
    split; [f_equal; f_equal; lia|].
    constructor; [|exact Hlines].
    exists menu_item. cbn. repeat split; try reflexivity; try assumption.
    apply MENU_BY_ID_lookup in Hm as [_ Hid]. exact Hid.
Qed.


End build_items_facts.

(** C2 (amended): for a request whose ids are all in the catalogue and
    whose quantities are at least 1, as validated requests are, and
    whose exact gross total is below 10^28, [build_items] returns that
    exact total, and one line per requested item, in order, carrying the
    catalogue price of its id as [unit_price] and price times quantity as
    [subtotal]. *)
Theorem build_items_gross_total order :
  Forall (fun r => is_Some (MENU_BY_ID !! OrderItemRequest.id r) /\
                   1 <= OrderItemRequest.quantity r) (OrderRequest.items order) ->
  exact_gross order < 10 ^ prec ->
  exists lines,
    build_items order = Ok (lines, exact_gross order) /\
    Forall2 priced_line (OrderRequest.items order) lines.
Proof.
  intros Hreqs Hb. unfold build_items, exact_gross, Decimal_of_int in *.
  destruct (build_items_loop_exact (OrderRequest.items order) [] 0) as (lines & Hl & Hp).
  - eapply Forall_impl; [exact Hreqs|]. intros r [Hs Hq]. split; [exact Hs|lia].
  - lia.
  - simpl. exact Hb.
  - exists lines. split; [exact Hl|exact Hp].
Qed.

(** ** The payload validator *)

Section validator_facts.

Lemma int_ge_spec bound j n :
  int_ge bound j = Some n <-> int_field j = Some n /\ bound <= n.
Proof.
  unfold int_ge. destruct (int_field j) as [k|]; cbn [mbind option_bind].
  - destruct (Z.leb_spec bound k); split.
    + intros [= <-]. auto.
    + intros [[= <-] _]. reflexivity.
    + discriminate.
    + intros [[= <-] ?]. lia.
  - split; [discriminate|intros [? _]; discriminate].
Qed.

Lemma validate_item_spec j item :
  validate_item j = Some item <-> item_accepted j item.
Proof.
  unfold validate_item, item_accepted. destruct j as [a b|xs|members].
  - split; [discriminate|]. intros (? & ? & ? & ? & _). discriminate.
  - split; [discriminate|]. intros (? & ? & ? & ? & _). discriminate.
  - split.
    + destruct (members !! "id") as [i|] eqn:Hi; [|discriminate].
      cbn [mbind option_bind].
      destruct (str_field i) as [id|] eqn:Hid; [|discriminate].
      cbn [mbind option_bind].
      destruct (members !! "quantity") as [q|] eqn:Hq; [|discriminate].
      cbn [mbind option_bind].
      destruct (int_ge 1 q) as [n|] eqn:Hn; [|discriminate].
      cbn [mbind option_bind]. intros [= <-].
      apply int_ge_spec in Hn as [Hn Hle].
      exists members, i, q. simpl. auto 10.
    + intros (m & i & q & [= <-] & Hi & Hid & Hq & Hn & Hle).
      rewrite Hi. cbn [mbind option_bind]. rewrite Hid. cbn [mbind option_bind].
      rewrite Hq. cbn [mbind option_bind].
      rewrite (proj2 (int_ge_spec 1 q _) (conj Hn Hle)). cbn [mbind option_bind].
      destruct item; reflexivity.
Qed.

Lemma with_default_str members key value :
  with_default members key "" str_field = Some value <->
  optional_str members key value.
Proof.
  unfold with_default, optional_str. destruct (members !! key).
  - reflexivity.
  - split; [intros [= <-]; reflexivity|intros ->; reflexivity].
Qed.

Lemma with_default_amount members key value :
  with_default members key 0 (int_ge 0) = Some value <->
  optional_amount members key value.
Proof.
  unfold with_default, optional_amount. destruct (members !! key).
  - apply int_ge_spec.
  - split; [intros [= <-]; reflexivity|intros ->; reflexivity].
Qed.

Lemma model_validate_json_spec raw request :
  model_validate_json raw = Some request <-> accepted_payload raw request.
Proof.
  unfold model_validate_json, accepted_payload. split.
  - destruct raw as [|[a b|ys|members]]; try discriminate.
    destruct (with_default members "customer" "" str_field) as [c|] eqn:Hc;
      [|discriminate]. cbn [mbind option_bind].
    destruct (members !! "items") as [[a b|xs|m]|] eqn:Hi; try discriminate.
    destruct (mapM validate_item xs) as [items|] eqn:Hitems; [|discriminate].
    cbn [mbind option_bind].
    destruct (with_default members "discount" 0 (int_ge 0)) as [d|] eqn:Hd;
      [|discriminate]. cbn [mbind option_bind].
    destruct (with_default members "paid" 0 (int_ge 0)) as [p|] eqn:Hp;
      [|discriminate]. cbn [mbind option_bind].
    unfold ensure_items_present. cbn [OrderRequest.items].
    destruct items as [|item items]; [discriminate|]. intros [= <-].
    exists members, xs. cbn [OrderRequest.items OrderRequest.customer
                                OrderRequest.discount OrderRequest.paid].
    apply mapM_Some in Hitems.
    split; [reflexivity|]. split; [exact Hi|].
    split; [intros ->; inversion Hitems|].
    split; [eapply Forall2_impl; [exact Hitems|]; intros j it; apply validate_item_spec|].
    split; [apply with_default_str; exact Hc|].
    split; apply with_default_amount; assumption.
  - intros (members & xs & -> & Hi & Hne & Hitems & Hc & Hd & Hp).
    apply with_default_str in Hc. apply with_default_amount in Hd, Hp.
    rewrite Hc, Hi. cbn [mbind option_bind].
    assert (Hm : mapM validate_item xs = Some (OrderRequest.items request)).
    { apply mapM_Some. eapply Forall2_impl; [exact Hitems|].
      intros j it. apply validate_item_spec. }
    rewrite Hm. cbn [mbind option_bind]. rewrite Hd, Hp. cbn [mbind option_bind].
    unfold ensure_items_present. cbn [OrderRequest.items].
    destruct request as [c items d p]. cbn in *.
    destruct items as [|item items]; [|reflexivity].
    inversion Hitems; subst. contradiction.
Qed.

Lemma parse_order_payload_Ok raw request :
  parse_order_payload raw = Ok request <-> accepted_payload raw request.
Proof.
  rewrite <- model_validate_json_spec. unfold parse_order_payload.
  destruct (model_validate_json raw); split; congruence.
Qed.


Lemma handle_web_app_rejects db update utcnow raw :
  Update.web_app_data update = Some raw ->
  (forall request, parse_order_payload raw <> Ok request) ->
  handle_web_app db update utcnow = (db, Ok (ReplyText payload_error_text)).
Proof.
  intros Hdata Hrej. unfold handle_web_app. rewrite Hdata.
  unfold parse_order_payload in *.
  destruct (model_validate_json raw) as [request|]; [|reflexivity].
  exfalso. apply (Hrej request). reflexivity.
Qed.

End validator_facts.

(** C7 (amended): [parse_order_payload] returns a request exactly when
    the payload is a JSON object whose [items] is a non-empty array of
    objects with a string [id] and an integer [quantity] of at least 1,
    whose [customer], if present, is a string, and whose [discount] and
    [paid], if present, are non-negative integers; the request carries
    these values, with the empty string for an absent [customer] and 0
    for an absent [discount] or [paid].  Any other payload raises
    [ValueError]; in particular an empty [items] array does, and the
    handler then answers with the fixed error text, leaves the store
    alone and never reaches [build_items]. *)
Theorem parse_order_payload_accepts raw :
  (forall request, parse_order_payload raw = Ok request <-> accepted_payload raw request) /\
  ((forall request, ~ accepted_payload raw request) ->
   exists msg, parse_order_payload raw = Raise (ValueError msg)) /\
  (forall members,
     raw = Json (JObject members) -> members !! "items" = Some (JArray []) ->
     (exists msg, parse_order_payload raw = Raise (ValueError msg)) /\
     forall db update utcnow,
       Update.web_app_data update = Some raw ->
       handle_web_app db update utcnow = (db, Ok (ReplyText payload_error_text))).
Proof.
  assert (Hrej : (forall request, ~ accepted_payload raw request) ->
                 forall request, parse_order_payload raw <> Ok request).
  { intros Hno request H. apply (Hno request). apply parse_order_payload_Ok. exact H. }
  assert (Hraise : (forall request, ~ accepted_payload raw request) ->
                   exists msg, parse_order_payload raw = Raise (ValueError msg)).
  { intros Hno. specialize (Hrej Hno). unfold parse_order_payload in *.
    destruct (model_validate_json raw) as [request|]; [|eexists; reflexivity].
    exfalso. apply (Hrej request). reflexivity. }
  split; [intros request; apply parse_order_payload_Ok|].
  split; [exact Hraise|].
  intros members -> Hitems.
  assert (Hno : forall request, ~ accepted_payload (Json (JObject members)) request).
  { intros request (m & xs & [= <-] & Hi & Hne & _). rewrite Hitems in Hi.
    injection Hi as <-. contradiction. }
  split; [apply Hraise; exact Hno|].
  intros db update utcnow Hdata. apply handle_web_app_rejects with (raw := Json (JObject members)).
  - exact Hdata.
  - apply Hrej. exact Hno.
Qed.

(** ** The handler *)

Section handler_facts.

Lemma handle_web_app_accepts db update utcnow raw request lines gross :
  Update.web_app_data update = Some raw ->
  parse_order_payload raw = Ok request ->
  build_items request = Ok (lines, gross) ->
  ints_fit (make_order update request lines gross utcnow) = true ->
  handle_web_app db update utcnow =
  (persist db (make_order update request lines gross utcnow),
   Ok (Receipt
         (StoredOrder.with_id (make_order update request lines gross utcnow)
            (Database.orders_seq db + 1))
         gross
         (StoredOrder.discount (make_order update request lines gross utcnow)))).
Proof.
  intros Hdata Hparse Hbuild Hfit. unfold handle_web_app.
  rewrite Hdata, Hparse, Hbuild, record_order_ok by exact Hfit. reflexivity.
Qed.

Lemma handle_web_app_receipt db update utcnow db' stored gross disc :
  handle_web_app db update utcnow = (db', Ok (Receipt stored gross disc)) ->
  exists raw request lines,
    Update.web_app_data update = Some raw /\
    parse_order_payload raw = Ok request /\
    build_items request = Ok (lines, gross) /\
    ints_fit (make_order update request lines gross utcnow) = true /\
    stored = StoredOrder.with_id (make_order update request lines gross utcnow)
               (Database.orders_seq db + 1) /\
    db' = persist db (make_order update request lines gross utcnow) /\
    disc = StoredOrder.discount (make_order update request lines gross utcnow).
Proof.
  unfold handle_web_app.
  destruct (Update.web_app_data update) as [raw|]; [|discriminate].
  destruct (parse_order_payload raw) as [request|[msg|msg]] eqn:Hparse; try discriminate.
  destruct (build_items request) as [[lines total]|[msg|msg]] eqn:Hbuild; try discriminate.
  destruct (ints_fit (make_order update request lines total utcnow)) eqn:Hfit.
  - rewrite record_order_ok by exact Hfit. intros [= <- <- <- <-].
    exists raw, request, lines. auto 10.
  - destruct (record_order_overflow db _ Hfit) as [msg ->]. discriminate.
Qed.

Lemma make_order_total update request lines gross utcnow :
  0 <= StoredOrder.total (make_order update request lines gross utcnow).
Proof.
  cbn [make_order StoredOrder.total]. unfold dec_sub, Decimal_of_int.
  apply round_context_nonneg.
  destruct (Z.ltb_spec gross (OrderRequest.discount request)); lia.
Qed.

Lemma make_order_exclusive update request lines gross utcnow :
  let o := make_order update request lines gross utcnow in
  (Z.abs (StoredOrder.paid o - StoredOrder.total o) < 10 ^ prec ->
   StoredOrder.change o = Z.max (StoredOrder.paid o - StoredOrder.total o) 0 /\
   StoredOrder.balance o = Z.max (StoredOrder.total o - StoredOrder.paid o) 0) /\
  (StoredOrder.paid o <> StoredOrder.total o ->
   (StoredOrder.change o <> 0 /\ StoredOrder.balance o = 0) \/
   (StoredOrder.change o = 0 /\ StoredOrder.balance o <> 0)) /\
  (StoredOrder.paid o = StoredOrder.total o ->
   StoredOrder.change o = 0 /\ StoredOrder.balance o = 0).
Proof.
  cbn [make_order StoredOrder.total StoredOrder.paid StoredOrder.change
       StoredOrder.balance].
  set (net := dec_sub gross _). set (paid := Decimal_of_int (OrderRequest.paid request)).
  unfold py_max, dec_sub, Decimal_of_int. split; [|split].
  - intros Hb. rewrite !round_context_exact by lia.
    destruct (Z.ltb_spec (paid - net) 0), (Z.ltb_spec (net - paid) 0); lia.
  - intros Hne.
    destruct (Z.lt_total paid net) as [Hlt|[Heq|Hgt]]; [|contradiction|].
    + pose proof (round_context_neg (paid - net) ltac:(lia)).
      pose proof (round_context_pos (net - paid) ltac:(lia)).
      destruct (Z.ltb_spec (round_context (paid - net)) 0),
               (Z.ltb_spec (round_context (net - paid)) 0); lia.
    + pose proof (round_context_pos (paid - net) ltac:(lia)).
      pose proof (round_context_neg (net - paid) ltac:(lia)).
      destruct (Z.ltb_spec (round_context (paid - net)) 0),
               (Z.ltb_spec (round_context (net - paid)) 0); lia.
  - intros ->. rewrite Z.sub_diag. rewrite round_context_0. simpl. auto.
Qed.


End handler_facts.

(** C3 (amended): for a request that passed the calculator, the stored
    discount is the smaller of the requested discount and the gross
    total, and the order is accepted with it (no error comes from the
    discount); the net total is the gross total minus that discount in
    28-digit arithmetic, exactly so whenever the gross total is below
    10^28; it is 0 whenever the requested discount exceeds the gross
    total, and it is never negative. *)
Theorem discount_clamped update request lines gross utcnow :
  build_items request = Ok (lines, gross) ->
  0 <= OrderRequest.discount request ->
  let order := make_order update request lines gross utcnow in
  StoredOrder.discount order = Z.min (OrderRequest.discount request) gross /\
  StoredOrder.total order = dec_sub gross (StoredOrder.discount order) /\
  (gross < 10 ^ prec -> StoredOrder.total order = gross - StoredOrder.discount order) /\
  (gross < OrderRequest.discount request -> StoredOrder.total order = 0) /\
  0 <= StoredOrder.total order /\
  (forall db raw,
     Update.web_app_data update = Some raw ->
     parse_order_payload raw = Ok request ->
     ints_fit order = true ->
     handle_web_app db update utcnow =
     (persist db order,
      Ok (Receipt (StoredOrder.with_id order (Database.orders_seq db + 1))
            gross (StoredOrder.discount order)))).
Proof.
  intros Hbuild Hd order.
  assert (Hdisc : StoredOrder.discount order = Z.min (OrderRequest.discount request) gross).
  { subst order. cbn [make_order StoredOrder.discount]. unfold Decimal_of_int.
    destruct (Z.ltb_spec gross (OrderRequest.discount request)); lia. }
  assert (Htotal : StoredOrder.total order = dec_sub gross (StoredOrder.discount order))
    by reflexivity.
  split; [exact Hdisc|]. split; [exact Htotal|].
  split; [|split; [|split]].
  - intros Hb. rewrite Htotal. unfold dec_sub. apply round_context_exact.
    rewrite Hdisc. assert (0 < 10 ^ prec) by reflexivity. lia.
  - intros Hlt. rewrite Htotal, Hdisc. rewrite Z.min_r by lia.
    unfold dec_sub. rewrite Z.sub_diag. reflexivity.
  - apply make_order_total.
  - intros db raw Hdata Hparse Hfit. eapply handle_web_app_accepts; eassumption.
Qed.

(** C4 (amended): for every processed order, exactly one of change and
    balance is nonzero when paid differs from the net total, and both
    are zero when they are equal; change = max(paid - net, 0) and
    balance = max(net - paid, 0) hold exactly whenever the difference
    of paid and net total is below 10^28 in magnitude. *)
Theorem change_balance_exclusive db update utcnow db' o gross disc :
  handle_web_app db update utcnow = (db', Ok (Receipt o gross disc)) ->
  (Z.abs (StoredOrder.paid o - StoredOrder.total o) < 10 ^ prec ->
   StoredOrder.change o = Z.max (StoredOrder.paid o - StoredOrder.total o) 0 /\
   StoredOrder.balance o = Z.max (StoredOrder.total o - StoredOrder.paid o) 0) /\
  (StoredOrder.paid o <> StoredOrder.total o ->
   (StoredOrder.change o <> 0 /\ StoredOrder.balance o = 0) \/
   (StoredOrder.change o = 0 /\ StoredOrder.balance o <> 0)) /\
  (StoredOrder.paid o = StoredOrder.total o ->
   StoredOrder.change o = 0 /\ StoredOrder.balance o = 0).
Proof.
  intros H. apply handle_web_app_receipt in H
    as (raw & request & lines & _ & _ & _ & _ & -> & _ & _).
  apply (make_order_exclusive update request lines gross utcnow).
Qed.




(** ** Inputs at which the unrestricted statements fail *)


(** C2: for 10^28 + 3 green teas the gross total is rounded to 28
    digits and differs from price times quantity. *)
Lemma gross_total_rounded :
  exists lines total,
    build_items (OrderRequest.mk "" [OrderItemRequest.mk "tea_green" (10 ^ 28 + 3)] 0 0) =
      Ok (lines, total) /\
    total <> 5000 * (10 ^ 28 + 3) /\
    map StoredOrderItem.subtotal lines <> [5000 * (10 ^ 28 + 3)].
Proof.
  eexists _, _. split; [vm_compute; reflexivity|]. split; discriminate.
Qed.

(** C3: with a gross total of 5 * 10^28 and a discount of 1 the net
    total equals the gross total. *)
Lemma net_total_rounded :
  exists lines gross,
    build_items (OrderRequest.mk "" [OrderItemRequest.mk "tea_green" (10 ^ 25)] 1 0) =
      Ok (lines, gross) /\
    let order :=
      make_order (update_from NotJson)
        (OrderRequest.mk "" [OrderItemRequest.mk "tea_green" (10 ^ 25)] 1 0)
        lines gross morning in
    StoredOrder.discount order = 1 /\
    StoredOrder.total order <> gross - StoredOrder.discount order.
Proof.
  eexists _, _. split; [vm_compute; reflexivity|].
  split; [reflexivity|]. vm_compute. discriminate.
Qed.

(** C4: for a submission paid with 10^29 + 1 units the change is
    rounded and is not paid - net. *)
Lemma change_rounded :
  exists db' o gross disc,
    handle_web_app Database.empty
      (update_from (submission tea_and_plov 0 (10 ^ 29 + 1))) morning =
      (db', Ok (Receipt o gross disc)) /\
    StoredOrder.change o <> Z.max (StoredOrder.paid o - StoredOrder.total o) 0.
Proof.
  eexists _, _, _, _. split; [vm_compute; reflexivity|]. vm_compute. discriminate.
Qed.


(** C7: a payload with neither [discount] nor [paid] is accepted, both
    read as 0. *)
Lemma payload_without_amounts_accepted :
  let members : gmap string json := <["items" := JArray tea_and_plov]> ∅ in
  members !! "discount" = None /\ members !! "paid" = None /\
  parse_order_payload (Json (JObject members)) =
    Ok (OrderRequest.mk "" [OrderItemRequest.mk "tea_green" 2;
                             OrderItemRequest.mk "plov" 1] 0 0).
Proof. vm_compute. auto. Qed.

(** C9: an order with 2^63 units of an item is not recorded:
    [record_order] raises and the file is unchanged. *)
Lemma record_order_overflows :
  record_order Database.empty oversized_order =
  (Database.empty,
   Raise (OverflowError "Python int too large to convert to SQLite INTEGER")).
Proof. vm_compute. reflexivity. Qed.


(** ** The statements at the sample submission *)


Lemma build_items_gross_total_witness :
  exact_gross sample_request = 38000 /\
  exists lines,
    build_items sample_request = Ok (lines, exact_gross sample_request) /\
    Forall2 priced_line (OrderRequest.items sample_request) lines.
Proof.
  split; [vm_compute; reflexivity|].
  apply (build_items_gross_total sample_request).
  - repeat constructor; simpl; try lia; eexists; vm_compute; reflexivity.
  - vm_compute. reflexivity.
Defined.

Lemma discount_clamped_witness :
  build_items sample_request = Ok (sample_lines, 38000) /\
  StoredOrder.total
    (make_order (update_from NotJson) sample_request sample_lines 38000 morning) = 38000.
Proof.
  assert (Hb : build_items sample_request = Ok (sample_lines, 38000))
    by (vm_compute; reflexivity).
  split; [exact Hb|].
  destruct (discount_clamped (update_from NotJson) sample_request sample_lines 38000
              morning Hb ltac:(simpl; lia)) as (_ & _ & Hexact & _).
  rewrite Hexact; [reflexivity|vm_compute; reflexivity].
Defined.

Lemma change_balance_exclusive_witness :
  exists db' o gross disc,
    handle_web_app Database.empty (update_from (submission tea_and_plov 0 40000)) morning =
      (db', Ok (Receipt o gross disc)) /\
    StoredOrder.change o <> 0 /\ StoredOrder.balance o = 0.
Proof.
  eexists _, _, _, _. split; [vm_compute; reflexivity|].
  lazymatch goal with
  | |- StoredOrder.change ?o <> 0 /\ _ =>
      destruct (change_balance_exclusive Database.empty
                  (update_from (submission tea_and_plov 0 40000)) morning
                  _ o _ _ ltac:(vm_compute; reflexivity)) as (_ & Hne & _)
  end.
  destruct Hne as [H|[H _]]; [vm_compute; discriminate|exact H|vm_compute in H; discriminate H].
Defined.




(** * Further properties of the code *)

(** ** The store: what a new order leaves untouched *)

Section store_frame.

Lemma fetch_earlier_items db order order_id :
  order_id <= Database.orders_seq db ->
  _fetch_order_items (persist db order) order_id = _fetch_order_items db order_id.
Proof.
  intros Hle. unfold _fetch_order_items.
  cbn [persist Database.order_items]. rewrite filter_app.
  rewrite (filter_none _ (item_rows _ _ _)).
  - rewrite app_nil_r. reflexivity.
  - eapply Forall_impl; [apply item_rows_order_id|]. intros row ->. lia.
Qed.

Lemma read_earlier_order db order row :
  row_wf db row -> read_order (persist db order) row = read_order db row.
Proof.
  intros [_ Hid]. unfold read_order.
  rewrite fetch_earlier_items by exact Hid. reflexivity.
Qed.


Lemma mapM_read_earlier db order rows :
  Forall (row_wf db) rows ->
  mapM (read_order (persist db order)) rows = mapM (read_order db) rows.
Proof.
  induction 1 as [|row rows Hrow _ IH]; [reflexivity|].
  rewrite !mapM_cons, IH, read_earlier_order by exact Hrow. reflexivity.
Qed.




Lemma listing_of_other_day db order d :
  store_wf db -> valid_datetime (StoredOrder.created_at order) = true ->
  valid_date d = true ->
  datetime.date (StoredOrder.created_at order) <> d ->
  list_orders (persist db order) (Some d) = list_orders db (Some d).
Proof.
  intros Hwf Hv Hd Hne.
  assert (Hsel : select_orders (persist db order) (Some d) = select_orders db (Some d)).
  { unfold select_orders. cbn [persist Database.orders]. rewrite filter_app.
    rewrite (filter_none _ [_]); [rewrite app_nil_r; reflexivity|].
    constructor; [|constructor]. cbn [order_row OrderRow.created_at].
    rewrite between_day by assumption. exact Hne. }
  unfold list_orders. rewrite Hsel. apply mapM_read_earlier.
  apply select_orders_wf. exact Hwf.
Qed.

End store_frame.


(** X2: the id [record_order] hands out is larger than every stored id,
    so the ids of the stored orders stay pairwise distinct, and the
    file keeps the invariant of well-formed rows. *)
Theorem record_order_fresh_id db order :
  store_wf db -> distinct_ids db -> ints_fit order = true ->
  valid_datetime (StoredOrder.created_at order) = true ->
  exists db' stored order_id,
    record_order db order = (db', Ok stored) /\
    StoredOrder.id stored = Some order_id /\
    (forall row, In row (Database.orders db) -> OrderRow.id row < order_id) /\
    distinct_ids db' /\ store_wf db'.
Proof.
  intros Hwf Hnd Hfit Hv.
  exists (persist db order), (StoredOrder.with_id order (Database.orders_seq db + 1)),
         (Database.orders_seq db + 1).
  split; [apply record_order_ok; exact Hfit|]. split; [reflexivity|].
  assert (Hlt : forall row, In row (Database.orders db) ->
                            OrderRow.id row < Database.orders_seq db + 1).
  { intros row Hin. destruct Hwf as [Ho _]. rewrite Forall_forall in Ho.
    apply list_elem_of_In in Hin. destruct (Ho row Hin) as [_ Hid]. lia. }
  split; [exact Hlt|]. split; [|apply persist_wf; assumption].
  unfold distinct_ids in *. cbn [persist Database.orders].
  rewrite map_app. apply NoDup_app. split; [exact Hnd|]. split.
  - intros id Hin [Heq|[]]%list_elem_of_In. simpl in Heq.
    apply list_elem_of_In, in_map_iff in Hin as (row & Hrow & Hin).
    specialize (Hlt row Hin). lia.
  - apply NoDup_singleton.
Qed.

(** X3: an order created on one day does not change what [list_orders],
    [summarize] and the report of [summary] give for any other day. *)
Theorem other_days_unaffected db order d :
  store_wf db -> ints_fit order = true ->
  valid_datetime (StoredOrder.created_at order) = true ->
  valid_date d = true ->
  datetime.date (StoredOrder.created_at order) <> d ->
  exists db' stored,
    record_order db order = (db', Ok stored) /\
    list_orders db' (Some d) = list_orders db (Some d) /\
    summarize db' (Some d) = summarize db (Some d) /\
    summary db' d = summary db d.
Proof.
  intros Hwf Hfit Hv Hd Hne.
  exists (persist db order), (StoredOrder.with_id order (Database.orders_seq db + 1)).
  split; [apply record_order_ok; exact Hfit|].
  pose proof (listing_of_other_day db order d Hwf Hv Hd Hne) as Hlist.
  split; [exact Hlist|].
  assert (Hsum : summarize (persist db order) (Some d) = summarize db (Some d))
    by (unfold summarize; rewrite Hlist; reflexivity).
  split; [exact Hsum|]. unfold summary. rewrite Hsum. reflexivity.
Qed.


(** ** The calculator on arbitrary requests *)

Section calculator_structure.

Lemma build_items_loop_lines reqs : forall items total lines' total',
  build_items_loop reqs items total = Ok (lines', total') ->
  exists lines,
    lines' = (items ++ lines)%list /\
    Forall2 computed_line reqs lines /\
    total' = fold_left dec_add (map StoredOrderItem.subtotal lines) total.
Proof.
  induction reqs as [|r reqs IH]; intros items total lines' total' H.
  - injection H as <- <-. exists []. rewrite app_nil_r.
    split; [reflexivity|]. split; [constructor|reflexivity].
  - cbn [build_items_loop] in H.
    destruct (MENU_BY_ID !! OrderItemRequest.id r) as [menu_item|] eqn:Hm; [|discriminate].
    apply IH in H as (lines & -> & Hlines & ->).
    eexists (_ :: lines). rewrite <- app_assoc. cbn [app].
    split; [reflexivity|]. split; [|reflexivity].
    constructor; [|exact Hlines].
    exists menu_item. cbn. repeat split; try reflexivity; try assumption.
    apply MENU_BY_ID_lookup in Hm as [_ Hid]. exact Hid.
Qed.

Lemma build_items_loop_known reqs : forall items total,
  Forall known_id reqs ->
  exists lines total', build_items_loop reqs items total = Ok (lines, total').
Proof.
  induction reqs as [|r reqs IH]; intros items total Hk.
  - eexists _, _. reflexivity.
  - inversion Hk as [|? ? [menu_item Hm] Hrest]; subst.
    cbn [build_items_loop]. rewrite Hm. apply IH. exact Hrest.
Qed.

Lemma build_items_loop_prefix known : forall r rest items total,
  Forall known_id known ->
  MENU_BY_ID !! OrderItemRequest.id r = None ->
  build_items_loop (known ++ r :: rest) items total =
  Raise (ValueError (unknown_item_message (OrderItemRequest.id r))).
Proof.
  induction known as [|k known IH]; intros r rest items total Hk Hr.
  - cbn [app build_items_loop]. rewrite Hr. reflexivity.
  - inversion Hk as [|? ? [menu_item Hm] Hrest]; subst.
    cbn [app build_items_loop]. rewrite Hm. apply IH; assumption.
Qed.

Lemma build_items_loop_outcome reqs : forall items total,
  (exists lines total', build_items_loop reqs items total = Ok (lines, total')) \/
  (exists id, MENU_BY_ID !! id = None /\
              build_items_loop reqs items total =
                Raise (ValueError (unknown_item_message id))).
Proof.
  induction reqs as [|r reqs IH]; intros items total.
  - left. eexists _, _. reflexivity.
  - cbn [build_items_loop].
    destruct (MENU_BY_ID !! OrderItemRequest.id r) as [menu_item|] eqn:Hm.
    + apply IH.
    + right. exists (OrderItemRequest.id r). split; [exact Hm|reflexivity].
Qed.

End calculator_structure.

(** X5: [build_items] returns a result exactly when every requested id
    is in the catalogue; the result then has one line per requested
    item, in order, with the id, quantity and catalogue price of the
    item, and the total is the sum of the subtotals shown on the lines
    (a sum and products of the 28-digit arithmetic). *)
Theorem build_items_known_ids order :
  ((exists lines total, build_items order = Ok (lines, total)) <->
   Forall known_id (OrderRequest.items order)) /\
  (forall lines total,
     build_items order = Ok (lines, total) ->
     Forall2 computed_line (OrderRequest.items order) lines /\
     total = dec_sum (map StoredOrderItem.subtotal lines)).
Proof.
  assert (Hlines : forall lines total,
            build_items order = Ok (lines, total) ->
            Forall2 computed_line (OrderRequest.items order) lines /\
            total = dec_sum (map StoredOrderItem.subtotal lines)).
  { intros lines total H. unfold build_items in H.
    apply build_items_loop_lines in H as (ls & -> & Hl & ->).
    split; [exact Hl|reflexivity]. }
  split; [|exact Hlines]. split.
  - intros (lines & total & H). apply Hlines in H as [Hl _].
    clear -Hl. induction Hl as [|r line reqs lines (m & Hm & _) _ IH]; constructor.
    + exists m. exact Hm.
    + exact IH.
  - intros Hk. apply build_items_loop_known. exact Hk.
Qed.

(** X6: the error of [build_items] quotes the first requested id that
    is not in the catalogue, whatever follows it in the request. *)
Theorem first_unknown_item_named customer known r rest discount paid :
  Forall known_id known ->
  MENU_BY_ID !! OrderItemRequest.id r = None ->
  build_items (OrderRequest.mk customer (known ++ r :: rest) discount paid) =
  Raise (ValueError ("Menu item '" +:+ OrderItemRequest.id r +:+ "' mavjud emas")).
Proof.
  intros Hk Hr. unfold build_items. cbn [OrderRequest.items].
  apply build_items_loop_prefix; assumption.
Qed.

(** X7: whatever the update, the handler either stores the order and
    answers with its receipt, or leaves the database exactly as it was:
    with no reply when the update carries no Web App data, with the
    fixed error text for a rejected payload, with the message of
    [build_items] for an unknown id, or raising the [OverflowError] of
    the store. *)
Theorem handle_web_app_outcomes db update utcnow :
  (exists order gross,
     handle_web_app db update utcnow =
     (persist db order,
      Ok (Receipt (StoredOrder.with_id order (Database.orders_seq db + 1))
            gross (StoredOrder.discount order)))) \/
  handle_web_app db update utcnow = (db, Ok NoReply) \/
  handle_web_app db update utcnow = (db, Ok (ReplyText payload_error_text)) \/
  (exists id,
     MENU_BY_ID !! id = None /\
     handle_web_app db update utcnow =
     (db, Ok (ReplyText ("Menu item '" +:+ id +:+ "' mavjud emas")))) \/
  (exists msg, handle_web_app db update utcnow = (db, Raise (OverflowError msg))).
Proof.
  unfold handle_web_app.
  destruct (Update.web_app_data update) as [raw|]; [|right; left; reflexivity].
  unfold parse_order_payload.
  destruct (model_validate_json raw) as [request|]; [|right; right; left; reflexivity].
  unfold build_items.
  destruct (build_items_loop_outcome (OrderRequest.items request) [] (Decimal_of_int 0))
    as [(lines & total & ->)|(id & Hnone & ->)].
  - destruct (ints_fit (make_order update request lines total utcnow)) eqn:Hfit.
    + left. rewrite record_order_ok by exact Hfit.
      exists (make_order update request lines total utcnow), total. reflexivity.
    + right; right; right; right.
      destruct (record_order_overflow db _ Hfit) as [msg ->]. exists msg. reflexivity.
  - right; right; right; left. exists id. split; [exact Hnone|reflexivity].
Qed.

(** ** From the submission to the listing *)

Section accepted_submissions.



End accepted_submissions.


(** ** Precision of the stored amounts *)

Section stored_precision.

Lemma round_half_even_error a unit :
  0 < unit -> 0 <= a ->
  2 * Z.abs (round_half_even a unit - a) <= unit /\
  0 <= round_half_even a unit <= a + unit.
Proof.
  intros Hu Ha. unfold round_half_even.
  pose proof (Z.div_mod a unit ltac:(lia)) as Hdm.
  pose proof (Z.mod_pos_bound a unit Hu) as Hmod.
  assert (Hq : 0 <= a / unit) by (apply Z.div_pos; lia).
  set (q := a / unit) in *. set (r := a mod unit) in *.
  destruct (Z.ltb_spec unit (2 * r)) as [Hlt|Hge]; cbn [orb].
  - split; [|nia]. replace ((q + 1) * unit - a) with (unit - r) by nia. lia.
  - destruct (Z.eqb_spec (2 * r) unit) as [Heq|Hne]; cbn [andb].
    + destruct (Z.odd q).
      * split; [|nia]. replace ((q + 1) * unit - a) with (unit - r) by nia. lia.
      * split; [|nia]. replace (q * unit - a) with (- r) by nia. lia.
    + split; [|nia]. replace (q * unit - a) with (- r) by nia. lia.
Qed.

Lemma float_of_Decimal_error v :
  Z.abs v < 2 ^ 62 ->
  Z.abs (float_of_Decimal v - v) * 2 ^ 53 <= Z.abs v /\
  Z.abs (float_of_Decimal v) < 2 ^ 63.
Proof.
  intros Hv. unfold float_of_Decimal.
  destruct (Z.leb_spec (Z.log2 (Z.abs v) - 52) 0) as [Hsmall|Hbig].
  - rewrite Z.sub_diag. simpl. lia.
  - set (a := Z.abs v) in *. set (e := Z.log2 a - 52) in *.
    assert (Ha : 0 < a).
    { destruct (Z.eq_dec a 0) as [H0|]; [|lia].
      subst e. rewrite H0 in Hbig. simpl in Hbig. lia. }
    destruct (Z.log2_spec a Ha) as [Hlow _].
    assert (He : e <= 9).
    { assert (Z.log2 a < 62) by (apply Z.log2_lt_pow2; lia). lia. }
    assert (Hpow : 2 ^ Z.log2 a = 2 ^ e * 2 ^ 52).
    { rewrite <- Z.pow_add_r by lia. f_equal. lia. }
    assert (Hu : 0 < 2 ^ e) by (apply Z.pow_pos_nonneg; lia).
    assert (Hu9 : 2 ^ e <= 2 ^ 9) by (apply Z.pow_le_mono_r; lia).
    destruct (round_half_even_error a (2 ^ e) Hu ltac:(lia)) as [Herr Hrange].
    set (f := round_half_even a (2 ^ e)) in *.
    assert (Hdiff : Z.abs (Z.sgn v * f - v) = Z.abs (f - a)).
    { subst a. destruct (Z.sgn_spec v) as [[? ->]|[[? ->]|[? ->]]]; lia. }
    rewrite Hdiff. split.
    + change (2 ^ 53) with (2 * 2 ^ 52). nia.
    + rewrite Z.abs_mul. replace (Z.abs (Z.sgn v)) with 1
        by (destruct (Z.sgn_spec v) as [[? ->]|[[? ->]|[? ->]]]; lia).
      change (2 ^ 9) with 512 in Hu9. change (2 ^ 62) with 4611686018427387904 in Hv.
      change (2 ^ 63) with 9223372036854775808. lia.
Qed.

End stored_precision.

(** X9: an amount below 2^62 in magnitude is kept in its NUMERIC cell
    as an INTEGER and is read back within a relative error of 2^-53
    (half a unit in the last place of a binary64). *)
Theorem stored_amount_error v :
  Z.abs v < 2 ^ 62 ->
  exists z,
    store_numeric v = SqlInteger z /\
    Decimal_of_cell (store_numeric v) = z /\
    Z.abs (z - v) * 2 ^ 53 <= Z.abs v.
Proof.
  intros Hv. destruct (float_of_Decimal_error v Hv) as [Herr Hrange].
  exists (float_of_Decimal v). unfold store_numeric, numeric_affinity.
  assert (H : (- 2 ^ 63 <? float_of_Decimal v) && (float_of_Decimal v <? 2 ^ 63) = true).
  { apply andb_true_intro. split; apply Z.ltb_lt; lia. }
  rewrite H. split; [reflexivity|]. split; [reflexivity|exact Herr].
Qed.

(** ** The text of [created_at] *)

(** X10: the ISO texts of two timestamps are ordered bytewise as the
    timestamps are, and equal only for equal timestamps; so the TEXT
    column sorts and filters by creation time. *)
Theorem created_at_text_order a b :
  valid_datetime a = true -> valid_datetime b = true ->
  (String.le (isoformat a) (isoformat b) <-> datetime_le a b) /\
  (isoformat a = isoformat b -> a = b).
Proof.
  intros Ha Hb. split; [apply isoformat_le; assumption|].
  intros Heq. pose proof (fromisoformat_isoformat a Ha) as Hra.
  rewrite Heq, (fromisoformat_isoformat b Hb) in Hra. congruence.
Qed.

(** ** Members the schema does not declare *)

(** X11: a member of the payload under a key other than [customer],
    [items], [discount] and [paid] does not change the outcome of
    validation. *)
Theorem undeclared_member_ignored (members : gmap string json) key j :
  key <> "customer" -> key <> "items" -> key <> "discount" -> key <> "paid" ->
  parse_order_payload (Json (JObject (<[key := j]> members))) =
  parse_order_payload (Json (JObject members)).
Proof.
  intros Hc Hi Hd Hp. unfold parse_order_payload, model_validate_json, with_default.
  rewrite !lookup_insert_ne by assumption. reflexivity.
Qed.

(** ** The menu listing *)

Section menu_sections.

Lemma fold_sections items : forall (sections : gmap string (list MenuItemDict.t)) seen,
  (forall c, sections !! c =
             match in_category c seen with [] => None | l => Some l end) ->
  forall c,
    fold_left add_to_section items sections !! c =
    match in_category c (seen ++ items) with [] => None | l => Some l end.
Proof.
  induction items as [|item items IH]; intros sections seen Hs c.
  - rewrite app_nil_r. apply Hs.
  - cbn [fold_left].
    replace (seen ++ item :: items)%list with ((seen ++ [item]) ++ items)%list
      by (rewrite <- app_assoc; reflexivity).
    apply IH. clear c. intros c. unfold add_to_section, in_category.
    rewrite filter_app, map_app.
    destruct (decide (MenuItem.category item = c)) as [<-|Hne].
    + rewrite lookup_insert_eq, Hs. unfold in_category.
      rewrite filter_cons_True by reflexivity. rewrite filter_nil. cbn [map].
      destruct (map as_dict (filter _ seen)) as [|x l]; reflexivity.
    + rewrite lookup_insert_ne by exact Hne. rewrite Hs. unfold in_category.
      rewrite filter_cons_False by exact Hne. rewrite filter_nil. cbn [map].
      rewrite app_nil_r. reflexivity.
Qed.

Lemma sections_lookup items c :
  fold_left add_to_section items ∅ !! c =
  match in_category c items with [] => None | l => Some l end.
Proof.
  apply (fold_sections items ∅ []). intros c'. rewrite lookup_empty. reflexivity.
Qed.

End menu_sections.

(** X12: [menu_to_sections] returns the categories of the given items in
    ascending order, each once; the section of a category holds exactly
    the items of that category, in the order given, and is never empty;
    and every item falls into the section of its category. *)
Theorem menu_to_sections_groups items :
  Sorted String.le (map MenuSection.category (menu_to_sections items)) /\
  NoDup (map MenuSection.category (menu_to_sections items)) /\
  (forall section,
     In section (menu_to_sections items) ->
     MenuSection.items section = in_category (MenuSection.category section) items /\
     MenuSection.items section <> []) /\
  (forall item,
     In item items ->
     exists section,
       In section (menu_to_sections items) /\
       MenuSection.category section = MenuItem.category item /\
       In (as_dict item) (MenuSection.items section)).
Proof.
  unfold menu_to_sections.
  set (sections := fold_left add_to_section items ∅).
  set (keys := merge_sort String.le (map fst (map_to_list sections))).
  assert (Hkeys : forall c, In c keys <-> exists l, sections !! c = Some l).
  { intros c. rewrite <- list_elem_of_In. subst keys.
    rewrite merge_sort_Permutation, list_elem_of_fmap. split.
    - intros ([c' l] & -> & Hin). exists l. apply elem_of_map_to_list. exact Hin.
    - intros [l Hl]. exists (c, l). split; [reflexivity|].
      apply elem_of_map_to_list. exact Hl. }
  assert (Hcats : map MenuSection.category
                    (map (fun category =>
                            MenuSection.mk category (default [] (sections !! category)))
                         keys) = keys).
  { rewrite map_map. cbn [MenuSection.category]. apply map_id. }
  rewrite Hcats. split; [apply Sorted_merge_sort; apply _|].
  split.
  { subst keys. rewrite merge_sort_Permutation. apply NoDup_fst_map_to_list. }
  split.
  - intros section Hin. apply in_map_iff in Hin as (c & <- & Hc).
    cbn [MenuSection.items MenuSection.category].
    apply Hkeys in Hc as [l Hl]. rewrite Hl. cbn [default].
    subst sections. rewrite sections_lookup in Hl.
    destruct (in_category c items) as [|x l'] eqn:Hg; [discriminate|].
    injection Hl as <-. split; [reflexivity|discriminate].
  - intros item Hin.
    assert (Hmem : In (as_dict item) (in_category (MenuItem.category item) items)).
    { unfold in_category. apply in_map. apply list_elem_of_In.
      apply list_elem_of_filter. split; [reflexivity|apply list_elem_of_In; exact Hin]. }
    assert (Hl : sections !! MenuItem.category item =
                 Some (in_category (MenuItem.category item) items)).
    { subst sections. rewrite sections_lookup.
      destruct (in_category (MenuItem.category item) items); [contradiction|reflexivity]. }
    exists (MenuSection.mk (MenuItem.category item)
              (default [] (sections !! MenuItem.category item))).
    split; [|split].
    + apply in_map_iff. exists (MenuItem.category item). split; [reflexivity|].
      apply Hkeys. eexists. exact Hl.
    + reflexivity.
    + cbn [MenuSection.items]. rewrite Hl. exact Hmem.
Qed.

(** ** The rendered amounts *)

Section currency_text.

Lemma digits_value_from_app s1 : forall acc s2,
  digits_value_from acc (s1 +:+ s2) = digits_value_from (digits_value_from acc s1) s2.
Proof.
  induction s1 as [|c s1 IH]; intros acc s2; [reflexivity|].
  rewrite append_cons. cbn [digits_value_from]. apply IH.
Qed.

Lemma digits_value_from_pad w : forall n acc,
  0 <= n < 10 ^ Z.of_nat w ->
  digits_value_from acc (pad w n) = acc * 10 ^ Z.of_nat w + n.
Proof.
  induction w as [|w IH]; intros n acc Hn.
  - simpl in *. lia.
  - destruct (split_digit w n Hn) as (Hq & Hr & En).
    cbn [pad digits_value_from]. rewrite digit_of_digit_char by exact Hq.
    rewrite IH by exact Hr.
    rewrite Nat2Z.inj_succ, Z.pow_succ_r by lia.
    set (P := 10 ^ Z.of_nat w) in *. nia.
Qed.

Lemma numeral_from_value fuel : forall n,
  0 <= n < 10 ^ Z.of_nat (S fuel) ->
  digits_value_from 0 (numeral_from fuel n) = n /\
  exists d s, 0 <= d <= 9 /\ numeral_from fuel n = String (digit_char d) s.
Proof.
  induction fuel as [|fuel IH]; intros n Hn.
  - change (10 ^ Z.of_nat 1) with 10 in Hn. cbn [numeral_from digits_value_from].
    rewrite digit_of_digit_char by lia. split; [lia|].
    exists n, "". split; [lia|reflexivity].
  - cbn [numeral_from]. destruct (Z.ltb_spec n 10) as [Hlt|Hge].
    + cbn [digits_value_from]. rewrite digit_of_digit_char by lia. split; [lia|].
      exists n, "". split; [lia|reflexivity].
    + rewrite Nat2Z.inj_succ, Z.pow_succ_r in Hn by lia.
      assert (Hq : 0 <= n / 10 < 10 ^ Z.of_nat (S fuel)).
      { split; [apply Z.div_pos; lia|apply Z.div_lt_upper_bound; lia]. }
      destruct (IH (n / 10) Hq) as (Hv & d & s & Hd & Hs).
      split.
      * rewrite digits_value_from_app, Hv. cbn [digits_value_from].
        pose proof (Z.mod_pos_bound n 10 ltac:(lia)).
        rewrite digit_of_digit_char by lia.
        pose proof (Z.div_mod n 10 ltac:(lia)). lia.
      * exists d, (s +:+ String (digit_char (n mod 10)) ""). split; [exact Hd|].
        rewrite Hs, append_cons. reflexivity.
Qed.

Lemma numeral_value n :
  0 <= n ->
  digits_value_from 0 (numeral n) = n /\
  exists d s, 0 <= d <= 9 /\ numeral n = String (digit_char d) s.
Proof.
  intros Hn. apply numeral_from_value. split; [exact Hn|].
  rewrite Nat2Z.inj_succ, Z2Nat.id by apply Z.log2_nonneg.
  destruct (Z.eq_dec n 0) as [->|Hne]; [reflexivity|].
  pose proof (Z.log2_spec n ltac:(lia)) as [_ Hlt].
  eapply Z.lt_le_trans; [exact Hlt|].
  apply Z.pow_le_mono_l. pose proof (Z.log2_nonneg n). lia.
Qed.

Lemma grouped_from_value fuel : forall n,
  0 <= n ->
  digits_value_from 0 (grouped_from fuel n) = n /\
  exists d s, 0 <= d <= 9 /\ grouped_from fuel n = String (digit_char d) s.
Proof.
  induction fuel as [|fuel IH]; intros n Hn; cbn [grouped_from].
  - apply numeral_value. exact Hn.
  - destruct (Z.ltb_spec n 1000) as [Hlt|Hge]; [apply numeral_value; exact Hn|].
    destruct (IH (n / 1000) ltac:(apply Z.div_pos; lia)) as (Hv & d & s & Hd & Hs).
    split.
    + rewrite digits_value_from_app, Hv. rewrite append_cons.
      cbn [digits_value_from digit_of nat_of_ascii]. 
      change ("" +:+ pad 3 (n mod 1000)) with (pad 3 (n mod 1000)).
      pose proof (Z.mod_pos_bound n 1000 ltac:(lia)).
      rewrite digits_value_from_pad by (simpl; lia).
      pose proof (Z.div_mod n 1000 ltac:(lia)). simpl. lia.
    + exists d, (s +:+ "," +:+ pad 3 (n mod 1000)). split; [exact Hd|].
      rewrite Hs, append_cons. reflexivity.
Qed.

Lemma replace_comma_value s : forall acc,
  digits_value_from acc (replace_char "," " " s) = digits_value_from acc s.
Proof.
  induction s as [|c s IH]; intros acc; [reflexivity|].
  cbn [replace_char digits_value_from].
  destruct (Ascii.eqb_spec c ","%char) as [->|Hne]; [|apply IH].
  rewrite IH. reflexivity.
Qed.

Lemma format_currency_value amount :
  digits_value (format_currency amount) = Z.abs amount.
Proof.
  unfold digits_value, format_currency, format_grouped, grouped.
  rewrite replace_comma_value, !digits_value_from_app.
  destruct (grouped_from_value (Z.to_nat (Z.log2 (Z.abs amount))) (Z.abs amount)
              ltac:(lia)) as [Hv _].
  destruct (amount <? 0); cbn [digits_value_from digit_of]; simpl; rewrite Hv; reflexivity.
Qed.

Lemma format_currency_sign amount :
  starts_with_minus (format_currency amount) = (amount <? 0).
Proof.
  unfold format_currency, format_grouped, grouped.
  destruct (amount <? 0); [reflexivity|].
  destruct (grouped_from_value (Z.to_nat (Z.log2 (Z.abs amount))) (Z.abs amount)
              ltac:(lia)) as (_ & d & s & Hd & ->).
  change ("" +:+ String (digit_char d) s) with (String (digit_char d) s).
  rewrite append_cons. cbn [replace_char starts_with_minus].
  destruct (digit_cases d Hd) as [->|[->|[->|[->|[->|[->|[->|[->|[->| ->]]]]]]]]];
    reflexivity.
Qed.

End currency_text.

(** X13: the text of an amount shows its digits: read in order they
    give the magnitude of the amount, a minus sign leads exactly the
    negative amounts, and so different amounts have different texts. *)
Theorem format_currency_shows_amount a b :
  digits_value (format_currency a) = Z.abs a /\
  starts_with_minus (format_currency a) = (a <? 0) /\
  (format_currency a = format_currency b -> a = b).
Proof.
  split; [apply format_currency_value|]. split; [apply format_currency_sign|].
  intros Heq.
  pose proof (format_currency_value a) as Ha. pose proof (format_currency_sign a) as Sa.
  rewrite Heq, format_currency_value in Ha. rewrite Heq, format_currency_sign in Sa.
  destruct (Z.ltb_spec a 0), (Z.ltb_spec b 0); try discriminate; lia.
Qed.

(** ** The receipt *)

Section receipt_text.





End receipt_text.



(** ** Startup configuration *)

(** X16: [from_env] fails with the [RuntimeError] naming BOT_TOKEN
    exactly when BOT_TOKEN is unset or empty, whatever else is set, and
    with the one naming WEBAPP_URL exactly when BOT_TOKEN is set and
    WEBAPP_URL is unset or empty; the settings it returns carry both
    values, and the host 0.0.0.0 when WEBAPP_HOST is unset. *)
Theorem from_env_required int_of_text prepare_path environ :
  (from_env int_of_text prepare_path environ =
     Failed (RuntimeError "BOT_TOKEN environment variable is required") <->
   ~ is_set environ "BOT_TOKEN") /\
  (from_env int_of_text prepare_path environ =
     Failed (RuntimeError "WEBAPP_URL environment variable is required") <->
   is_set environ "BOT_TOKEN" /\ ~ is_set environ "WEBAPP_URL") /\
  (forall settings,
     from_env int_of_text prepare_path environ = Started settings ->
     environ !! "BOT_TOKEN" = Some (Settings.bot_token settings) /\
     Settings.bot_token settings <> "" /\
     environ !! "WEBAPP_URL" = Some (Settings.webapp_url settings) /\
     Settings.webapp_url settings <> "" /\
     (environ !! "WEBAPP_HOST" = None -> Settings.webapp_host settings = "0.0.0.0") /\
     int_of_text (environ_get environ "WEBAPP_PORT" "8000") =
       Some (Settings.webapp_port settings)).
Proof.
  unfold from_env, is_set.
  destruct (environ !! "BOT_TOKEN") as [[|c token]|] eqn:Ht.
  - split; [|split].
    + split; [intros _ (v & [= <-] & Hv); contradiction|reflexivity].
    + split; [discriminate|intros [(v & [= <-] & Hv) _]; contradiction].
    + discriminate.
  - destruct (environ !! "WEBAPP_URL") as [[|c' url]|] eqn:Hu.
    + split; [|split].
      * split; [discriminate|]. intros H. exfalso. apply H. eexists. split; [reflexivity|discriminate].
      * split; [|reflexivity]. intros _. split; [eexists; split; [reflexivity|discriminate]|].
        intros (v & [= <-] & Hv). contradiction.
      * discriminate.
    + split; [|split].
      * destruct (int_of_text _); [destruct (prepare_path _)|];
          (split; [discriminate|]); intros H; exfalso; apply H;
          eexists; (split; [reflexivity|discriminate]).
      * destruct (int_of_text _); [destruct (prepare_path _)|];
          (split; [discriminate|]); intros [_ H]; exfalso; apply H;
          eexists; (split; [reflexivity|discriminate]).
      * intros settings. unfold environ_get.
        destruct (int_of_text _) as [port|] eqn:Hp; [|discriminate].
        destruct (prepare_path _) as [path|]; [|discriminate].
        intros [= <-]. cbn. repeat split; try discriminate.
        intros ->. reflexivity.
    + split; [|split].
      * split; [discriminate|]. intros H. exfalso. apply H. eexists. split; [reflexivity|discriminate].
      * split; [|reflexivity]. intros _. split; [eexists; split; [reflexivity|discriminate]|].
        intros (v & [= ] & _).
      * discriminate.
  - split; [|split].
    + split; [intros _ (v & [= ] & _)|reflexivity].
    + split; [discriminate|intros [(v & [= ] & _) _]].
    + discriminate.
Qed.

(** ** The stored customer *)

Section strip_facts.

Lemma append_assoc_string s1 s2 s3 : (s1 +:+ s2) +:+ s3 = s1 +:+ (s2 +:+ s3).
Proof.
  induction s1 as [|c s1 IH]; [reflexivity|].
  rewrite !append_cons, IH. reflexivity.
Qed.

Lemma length_append s1 s2 :
  String.length (s1 +:+ s2) = (String.length s1 + String.length s2)%nat.
Proof.
  induction s1 as [|c s1 IH]; [reflexivity|].
  rewrite append_cons. simpl. rewrite IH. reflexivity.
Qed.

Lemma rev_app_spec s1 : forall s2, String.rev_app s1 s2 = String.rev s1 +:+ s2.
Proof.
  unfold String.rev.
  induction s1 as [|c s1 IH]; intros s2; [reflexivity|].
  cbn [String.rev_app]. rewrite IH, (IH (String c "")).
  rewrite append_assoc_string. reflexivity.
Qed.

Lemma rev_cons c s : String.rev (String c s) = String.rev s +:+ String c "".
Proof. unfold String.rev at 1. cbn [String.rev_app]. apply rev_app_spec. Qed.

Lemma rev_append s1 s2 : String.rev (s1 +:+ s2) = String.rev s2 +:+ String.rev s1.
Proof.
  induction s1 as [|c s1 IH].
  - change ("" +:+ s2) with s2. rewrite append_empty_r. reflexivity.
  - rewrite append_cons, !rev_cons, IH, append_assoc_string. reflexivity.
Qed.

Lemma rev_involutive s : String.rev (String.rev s) = s.
Proof.
  induction s as [|c s IH]; [reflexivity|].
  rewrite rev_cons, rev_append, IH. reflexivity.
Qed.

Lemma length_rev s : String.length (String.rev s) = String.length s.
Proof.
  induction s as [|c s IH]; [reflexivity|].
  rewrite rev_cons, length_append, IH. simpl. lia.
Qed.

Lemma drop_prefix_Some p : forall s r, drop_prefix p s = Some r <-> s = p +:+ r.
Proof.
  induction p as [|a p IH]; intros s r.
  - change ("" +:+ r) with r. destruct s; simpl; split; congruence.
  - destruct s as [|b s]; [split; discriminate|].
    cbn [drop_prefix]. rewrite append_cons.
    destruct (Ascii.eqb_spec a b) as [->|Hne].
    + rewrite IH. split; [intros ->; reflexivity|intros [= ->]; reflexivity].
    + split; [discriminate|intros [= -> _]; contradiction].
Qed.

Lemma drop_any_Some ps s r :
  drop_any ps s = Some r -> exists p, In p ps /\ s = p +:+ r.
Proof.
  induction ps as [|p ps IH]; [discriminate|]. cbn [drop_any].
  destruct (drop_prefix p s) as [r'|] eqn:Hp.
  - intros [= <-]. exists p. split; [left; reflexivity|]. apply drop_prefix_Some. exact Hp.
  - intros H. destruct (IH H) as (q & Hq & Hs). exists q. split; [right; exact Hq|exact Hs].
Qed.

Lemma drop_any_prefixed ps s p r :
  In p ps -> s = p +:+ r -> is_Some (drop_any ps s).
Proof.
  induction ps as [|q ps IH]; intros Hin Hs; [contradiction|]. cbn [drop_any].
  destruct (drop_prefix q s) as [r'|] eqn:Hq; [eexists; reflexivity|].
  destruct Hin as [->|Hin]; [|apply IH; assumption].
  apply drop_prefix_Some in Hs. congruence.
Qed.

Lemma strip_left_spec ps fuel : forall s,
  Forall (fun p => p <> "") ps ->
  (String.length s <= fuel)%nat ->
  drop_any ps (strip_left ps fuel s) = None /\
  exists dropped, s = dropped +:+ strip_left ps fuel s.
Proof.
  induction fuel as [|fuel IH]; intros s Hne Hlen.
  - destruct s as [|c s]; [|simpl in Hlen; lia]. cbn [strip_left]. split; [|exists ""; reflexivity].
    destruct (drop_any ps "") as [r|] eqn:Hd; [|reflexivity].
    apply drop_any_Some in Hd as (p & Hin & Hs).
    rewrite Forall_forall in Hne. apply list_elem_of_In in Hin. specialize (Hne p Hin).
    destruct p; [contradiction|discriminate].
  - cbn [strip_left]. destruct (drop_any ps s) as [s'|] eqn:Hd.
    + pose proof Hd as Hd'. apply drop_any_Some in Hd' as (p & Hin & ->).
      rewrite Forall_forall in Hne. pose proof (Hne p (proj2 (list_elem_of_In _ _) Hin)) as Hp.
      rewrite length_append in Hlen.
      destruct (IH s') as (Hnone & dropped & Hs).
      * apply Forall_forall. exact Hne.
      * destruct p; [contradiction|simpl in Hlen; lia].
      * split; [exact Hnone|]. exists (p +:+ dropped).
        rewrite append_assoc_string, <- Hs. reflexivity.
    + split; [exact Hd|exists ""; reflexivity].
Qed.

Lemma whitespace_nonempty : Forall (fun p => p <> "") whitespace.
Proof. unfold whitespace. simpl. repeat constructor; discriminate. Qed.

Lemma rev_whitespace_nonempty : Forall (fun p => p <> "") (map String.rev whitespace).
Proof. unfold whitespace. simpl. repeat constructor; discriminate. Qed.

Lemma strip_left_fixed ps fuel s :
  drop_any ps s = None -> strip_left ps fuel s = s.
Proof. intros H. destruct fuel; [reflexivity|]. cbn [strip_left]. rewrite H. reflexivity. Qed.

End strip_facts.

(** X17: the customer text the handler stores has no whitespace at its
    start or at its end, is a contiguous part of the submitted text, and
    is the submitted text itself when that has no whitespace at either
    end. *)
Theorem stored_customer_stripped update request lines total utcnow :
  let customer := StoredOrder.customer (make_order update request lines total utcnow) in
  ~ starts_with_whitespace customer /\
  ~ ends_with_whitespace customer /\
  (exists before after, OrderRequest.customer request = before +:+ customer +:+ after) /\
  (~ starts_with_whitespace (OrderRequest.customer request) ->
   ~ ends_with_whitespace (OrderRequest.customer request) ->
   customer = OrderRequest.customer request).
Proof.
  cbn [make_order StoredOrder.customer]. set (s := OrderRequest.customer request).
  unfold strip, rstrip, lstrip, starts_with_whitespace, ends_with_whitespace.
  destruct (strip_left_spec whitespace (String.length s) s whitespace_nonempty (le_n _))
    as (Hl & before & Hs).
  set (t := strip_left whitespace (String.length s) s) in *.
  destruct (strip_left_spec (map String.rev whitespace) (String.length t) (String.rev t)
              rev_whitespace_nonempty ltac:(rewrite length_rev; lia)) as (Hr & dropped & Ht).
  set (u := strip_left (map String.rev whitespace) (String.length t) (String.rev t)) in *.
  assert (Et : t = String.rev u +:+ String.rev dropped).
  { rewrite <- (rev_involutive t), Ht, rev_append. reflexivity. }
  split; [|split; [|split]].
  - intros [r Hsome]. apply drop_any_Some in Hsome as (p & Hin & Hp).
    assert (Hbad : is_Some (drop_any whitespace t)).
    { apply (drop_any_prefixed whitespace t p (r +:+ String.rev dropped) Hin).
      rewrite Et, Hp, append_assoc_string. reflexivity. }
    rewrite Hl in Hbad. destruct Hbad as [? Hbad]. discriminate.
  - rewrite rev_involutive, Hr. intros [? H]. discriminate.
  - exists before, (String.rev dropped). rewrite <- Et. exact Hs.
  - intros Hns Hne.
    assert (Ht' : t = s).
    { subst t. apply strip_left_fixed.
      destruct (drop_any whitespace s) eqn:E; [|reflexivity].
      exfalso. apply Hns. eexists. reflexivity. }
    subst u. rewrite Ht'. rewrite strip_left_fixed; [apply rev_involutive|].
    destruct (drop_any (map String.rev whitespace) (String.rev s)) eqn:E; [|reflexivity].
    exfalso. apply Hne. eexists. reflexivity.
Qed.

(** ** The further properties at the sample data *)


Lemma record_order_fresh_id_witness :
  store_wf Database.empty /\ distinct_ids Database.empty /\
  exists db' stored order_id,
    record_order Database.empty sample_order = (db', Ok stored) /\
    StoredOrder.id stored = Some order_id /\ distinct_ids db'.
Proof.
  assert (Hwf : store_wf Database.empty) by (split; constructor).
  assert (Hnd : distinct_ids Database.empty) by constructor.
  split; [exact Hwf|]. split; [exact Hnd|].
  destruct (record_order_fresh_id Database.empty sample_order Hwf Hnd eq_refl eq_refl)
    as (db' & stored & order_id & Hr & Hid & _ & Hd & _).
  exists db', stored, order_id. auto.
Defined.

Lemma other_days_unaffected_witness :
  store_wf Database.empty /\
  exists db' stored,
    record_order Database.empty sample_order = (db', Ok stored) /\
    summary db' (date.mk 2024 5 18) = summary Database.empty (date.mk 2024 5 18).
Proof.
  assert (Hwf : store_wf Database.empty) by (split; constructor).
  split; [exact Hwf|].
  destruct (other_days_unaffected Database.empty sample_order (date.mk 2024 5 18)
              Hwf eq_refl eq_refl eq_refl) as (db' & stored & Hr & _ & _ & Hs).
  - discriminate.
  - exists db', stored. auto.
Defined.


Lemma first_unknown_item_named_witness :
  build_items
    (OrderRequest.mk "" ([OrderItemRequest.mk "plov" 1] ++
                          OrderItemRequest.mk "cola" 2 ::
                          [OrderItemRequest.mk "fanta" 1]) 0 0) =
  Raise (ValueError "Menu item 'cola' mavjud emas").
Proof.
  apply (first_unknown_item_named "" [OrderItemRequest.mk "plov" 1]
           (OrderItemRequest.mk "cola" 2) [OrderItemRequest.mk "fanta" 1] 0 0).
  - constructor; [|constructor]. eexists. vm_compute. reflexivity.
  - vm_compute. reflexivity.
Defined.


Lemma stored_amount_error_witness :
  exists z,
    store_numeric (2 ^ 53 + 1) = SqlInteger z /\
    Z.abs (z - (2 ^ 53 + 1)) * 2 ^ 53 <= Z.abs (2 ^ 53 + 1).
Proof.
  destruct (stored_amount_error (2 ^ 53 + 1) ltac:(vm_compute; reflexivity))
    as (z & Hs & _ & Herr).
  exists z. auto.
Defined.

Lemma created_at_text_order_witness :
  String.le (isoformat morning) (isoformat noon) <-> datetime_le morning noon.
Proof. apply (created_at_text_order morning noon eq_refl eq_refl). Defined.

Lemma undeclared_member_ignored_witness :
  parse_order_payload
    (Json (JObject (<["note" := JScalar None (Some "tez")]>
                      (<["items" := JArray tea_and_plov]> ∅)))) =
  parse_order_payload (Json (JObject (<["items" := JArray tea_and_plov]> ∅))).
Proof.
  apply (undeclared_member_ignored (<["items" := JArray tea_and_plov]> ∅) "note");
    discriminate.
Defined.


(** X18: the handler stays silent exactly when the update carries no
    Web App data; every other update that does not end in an exception
    is answered with a text. *)
Theorem silent_only_without_data db update utcnow db' r :
  handle_web_app db update utcnow = (db', Ok r) ->
  (reply_text r = None <-> Update.web_app_data update = None).
Proof.
  unfold handle_web_app.
  destruct (Update.web_app_data update) as [raw|].
  - destruct (parse_order_payload raw) as [request|[msg|msg]].
    + destruct (build_items request) as [[lines total]|[msg|msg]].
      * destruct (record_order db _) as [db'' [o|e]]; [|discriminate].
        intros [= <- <-]. split; discriminate.
      * intros [= <- <-]. split; discriminate.
      * discriminate.
    + intros [= <- <-]. split; discriminate.
    + discriminate.
  - intros [= <- <-]. split; reflexivity.
Qed.

Lemma silent_only_without_data_witness :
  reply_text NoReply = None <-> Update.web_app_data (Update.mk None 77 None) = None.
Proof.
  apply (silent_only_without_data Database.empty (Update.mk None 77 None) morning
           Database.empty NoReply).
  reflexivity.
Defined.
